(** * K9s configuration: [internal/config/config.go]

    A shallow embedding of the [Config] type of k9s and of its methods
    (context and namespace reconciliation, accessors, load and save,
    YAML file-name normalisation), with the properties its specification
    states about them.

    Conventions of the embedding.
    - A Go pointer that may be [nil] is an [option]; reading through it
      is [deref], which panics on [None] as Go does.
    - A Go [(T, error)] result is a [result T]; a lone [error] result is
      a [result unit].
    - A method on [*Config] is a computation in the monad [M]: it reads
      and updates the receiver held in the machine state, appends to the
      trace of effects on the outside world, and either returns or
      panics.
    - A [*data.Context] is a reference into the context registry: the
      key of the record together with the record read through it;
      writes through the pointer update the registry entry in place. *)

From Stdlib Require Import ZArith Ascii String List Bool.
From stdpp Require Import base option strings gmap.

Open Scope string_scope.

(** ** Errors *)

Inductive io_kind := ENOENT | EACCES | EIO.

(** The error taxonomy; [Wrapped] is [fmt.Errorf("...: %w", err)]. *)
Inductive error :=
| IOError (kind : io_kind) (path : string)
| DecodeError (msg : string)
| NoActiveContextError
| NotFoundError (name : string)
| SettingsError
| ValidationError (cause : error)
| Wrapped (msg : string) (cause : error)
| ConnectionError (msg : string).

Inductive result (A : Type) :=
| Ok (a : A)
| Err (e : error).
Arguments Ok {A} a.
Arguments Err {A} e.

(** [os.IsNotExist(err)], [err] possibly nil. *)
Definition IsNotExist (err : option error) : bool :=
  match err with
  | Some (IOError ENOENT _) => true
  | _ => false
  end.

(** ** Data model *)

Module Namespace.
Record t := mk { Active : string; Favorites : list string }.
End Namespace.

Module View.
Record t := mk { Active : string }.
End View.

Module Context.
Record t := mk {
    ClusterName : string;
    Namespace : Namespace.t;
    View : View.t
  }.
End Context.

(** The logger configuration is opaque to this file. *)
Record Logger := mkLogger { logger_options : list (string * Z) }.

(** A [*data.Context]: the registry key and the record it points to. *)
Definition ctx_ref : Type := string * Context.t.

(** Modelled from the spec: the type [K9s] is declared in another file.
    The Context Registry maps a context name to its Context record; the
    Active Context Pointer names the current context and is absent only
    before the first activation (or after a reset); [manualCommand] is
    the one-shot override, a [*string]. *)
Record K9s := mkK9s {
  Contexts : gmap string Context.t;
  activeContext : option string;
  manualCommand : option string;
  Logger_of : option Logger;
  ScreenDumpDir : string
}.

(** Modelled from the spec: the field [activeContextName] that config.go
    reads is the name held by the Active Context Pointer, the empty
    string while there is none. *)
Definition activeContextName (k : K9s) : string :=
  default "" (activeContext k).

(** Modelled from the spec: [client.Connection] offers a
    namespace-existence check and may be unreachable. *)
Record Connection := mkConnection {
  Reachable : bool;
  NamespaceExists : string -> bool
}.

(** Modelled from the spec: [data.KubeSettings] supplies the limits
    consulted when a namespace is activated; the lookup may fail. *)
Record Limits := mkLimits { MaxFavorites : nat }.
Record KubeSettings := mkKubeSettings { lookupLimits : option Limits }.

(** [client.Config], of which only [CurrentContextName] is used. *)
Record client_Config := mkClientConfig {
  CurrentContextName : result string
}.

(** [genericclioptions.ConfigFlags]: the two [*string] fields used. *)
Module ConfigFlags.
Record t := mk { Context : option string; Namespace : option string }.
End ConfigFlags.

(** [Flags]: [AllNamespaces] is a [*bool]. *)
Record Flags := mkFlags { AllNamespaces : option bool }.

(** [Config]. Its [K9s] field is a [*K9s] that [NewConfig] always sets;
    the methods are modelled on a non-nil one, held in place. *)
Record Config := mkConfig {
  K9s_of : K9s;
  conn : option Connection;
  settings : KubeSettings
}.

(** ** The outside world *)

Inductive level := DebugLevel | ErrorLevel.

(** An argument of a log format: [%s] and [%q] take a string, [%v] an
    error. *)
Inductive arg :=
| AStr (s : string)
| AErr (e : error).

(** Effects on the outside world, in the order they happen. *)
Inductive event :=
| EvLog (l : level) (format : string) (args : list arg)
| EvK9sSave (k : K9s)
| EvEnsureDirPath (path : string) (dirmod : Z)
| EvWriteFile (path : string) (data : list Byte.byte) (perm : Z).

(** What this file takes from its collaborators: constants, path
    builders and [K9s] methods declared in other files, the YAML codec,
    and the answers of the file system. *)
Record Env := mkEnv {
  DefaultNamespace : string;
  DefaultView : string;
  DefaultDirMod : Z;
  AppConfigFile : string;
  AppContextAliasesFile : string -> string -> string;
  AppContextPluginsFile : string -> string -> string;
  NewContext : string -> Context.t;
  NewLogger : Logger;
  K9s_Refine : K9s -> K9s -> K9s;
  K9s_Validate : option Connection -> KubeSettings -> K9s -> K9s;
  K9s_Save : K9s -> result unit;
  K9s_GetScreenDumpDir : K9s -> string;
  K9s_resetConnection : Connection -> K9s -> K9s;
  yaml_Unmarshal : list Byte.byte -> result (option K9s);
  yaml_Marshal : K9s -> result (list Byte.byte);
  os_Stat : string -> option error;
  os_ReadFile : string -> result (list Byte.byte);
  os_WriteFile : string -> list Byte.byte -> Z -> result unit;
  data_EnsureDirPath : string -> Z -> result unit
}.

Definition with_os_Stat (f : string -> option error) (env : Env) : Env :=
  mkEnv (DefaultNamespace env) (DefaultView env) (DefaultDirMod env)
    (AppConfigFile env) (AppContextAliasesFile env) (AppContextPluginsFile env)
    (NewContext env) (NewLogger env) (K9s_Refine env) (K9s_Validate env)
    (K9s_Save env) (K9s_GetScreenDumpDir env) (K9s_resetConnection env)
    (yaml_Unmarshal env) (yaml_Marshal env) f (os_ReadFile env)
    (os_WriteFile env) (data_EnsureDirPath env).

Definition with_K9s_Save (f : K9s -> result unit) (env : Env) : Env :=
  mkEnv (DefaultNamespace env) (DefaultView env) (DefaultDirMod env)
    (AppConfigFile env) (AppContextAliasesFile env) (AppContextPluginsFile env)
    (NewContext env) (NewLogger env) (K9s_Refine env) (K9s_Validate env)
    f (K9s_GetScreenDumpDir env) (K9s_resetConnection env)
    (yaml_Unmarshal env) (yaml_Marshal env) (os_Stat env) (os_ReadFile env)
    (os_WriteFile env) (data_EnsureDirPath env).

Definition with_yaml_Marshal (f : K9s -> result (list Byte.byte)) (env : Env) : Env :=
  mkEnv (DefaultNamespace env) (DefaultView env) (DefaultDirMod env)
    (AppConfigFile env) (AppContextAliasesFile env) (AppContextPluginsFile env)
    (NewContext env) (NewLogger env) (K9s_Refine env) (K9s_Validate env)
    (K9s_Save env) (K9s_GetScreenDumpDir env) (K9s_resetConnection env)
    (yaml_Unmarshal env) f (os_Stat env) (os_ReadFile env)
    (os_WriteFile env) (data_EnsureDirPath env).

Definition with_data_EnsureDirPath (f : string -> Z -> result unit) (env : Env) : Env :=
  mkEnv (DefaultNamespace env) (DefaultView env) (DefaultDirMod env)
    (AppConfigFile env) (AppContextAliasesFile env) (AppContextPluginsFile env)
    (NewContext env) (NewLogger env) (K9s_Refine env) (K9s_Validate env)
    (K9s_Save env) (K9s_GetScreenDumpDir env) (K9s_resetConnection env)
    (yaml_Unmarshal env) (yaml_Marshal env) (os_Stat env) (os_ReadFile env)
    (os_WriteFile env) f.

(** Modelled from the spec: [client.NamespaceAll], the sentinel "all"
    value, is declared in another file. *)
Definition NamespaceAll : string := "all".

(** ** The monad of methods *)

Record St := mkSt { this : Config; trace : list event }.

Inductive outcome (A : Type) :=
| Returns (a : A) (s : St)
| Panics (msg : string).
Arguments Returns {A} a s.
Arguments Panics {A} msg.

Definition M (A : Type) : Type := St -> outcome A.

Global Instance M_ret : MRet M := fun A a s => Returns a s.
Global Instance M_bind : MBind M := fun A B f m s =>
  match m s with
  | Returns a s' => f a s'
  | Panics msg => Panics msg
  end.

Definition panic {A} (msg : string) : M A := fun _ => Panics msg.

(** [*p] *)
Definition deref {A} (p : option A) : M A :=
  match p with
  | Some a => mret a
  | None => panic "invalid memory address or nil pointer dereference"
  end.

(** [p == nil] *)
Definition is_nil {A} (p : option A) : bool :=
  match p with
  | Some _ => false
  | None => true
  end.

Definition get_K9s : M K9s := fun s => Returns (K9s_of (this s)) s.
Definition get_conn : M (option Connection) := fun s => Returns (conn (this s)) s.
Definition get_settings : M KubeSettings := fun s => Returns (settings (this s)) s.

Definition set_K9s (k : K9s) : M unit := fun s =>
  Returns tt (mkSt (mkConfig k (conn (this s)) (settings (this s))) (trace s)).
Definition set_conn (cn : option Connection) : M unit := fun s =>
  Returns tt (mkSt (mkConfig (K9s_of (this s)) cn (settings (this s))) (trace s)).

Definition emit (e : event) : M unit := fun s =>
  Returns tt (mkSt (this s) (trace s ++ [e])).

(** [if err != nil { return err }] *)
Notation "x ←? m ; k" :=
  (mbind (fun r => match r with Ok x => k | Err e => mret (Err e) end) m)
  (at level 20, m at level 100, k at level 200, only parsing, right associativity).

(** ** Go library functions used by config.go *)

(** [filepath.Ext]: scan from the last byte towards the first, stop at
    a path separator, return the suffix that starts at the first dot
    met.  [r] is the part of the path still to scan, reversed; [acc] is
    the suffix already scanned. *)
Fixpoint Ext_loop (r : list ascii) (acc : string) : string :=
  match r with
  | [] => ""
  | ch :: r' =>
      if Ascii.eqb ch "/" then ""
      else if Ascii.eqb ch "." then String ch acc
      else Ext_loop r' (String ch acc)
  end.

Definition filepath_Ext (path : string) : string :=
  Ext_loop (rev (list_ascii_of_string path)) "".

(** [strings.HasSuffix] and [strings.TrimSuffix]. *)
Definition strings_HasSuffix (s suffix : string) : bool :=
  (String.length suffix <=? String.length s)%nat &&
  String.eqb
    (substring (String.length s - String.length suffix) (String.length suffix) s)
    suffix.

Definition strings_TrimSuffix (s suffix : string) : string :=
  if strings_HasSuffix s suffix
  then substring 0 (String.length s - String.length suffix) s
  else s.

(** ** Helpers of config.go *)

Definition isSet (s : option string) : bool :=
  match s with
  | Some v => (0 <? String.length v)%nat
  | None => false
  end.

Definition isYamlFile (file : string) : bool :=
  let ext := filepath_Ext file in
  String.eqb ext ".yml" || String.eqb ext ".yaml".

(** Modelled from the spec: [IsBoolSet] is declared in another file;
    an optional boolean flag is set when it is present and true. *)
Definition IsBoolSet (b : option bool) : bool :=
  match b with
  | Some v => v
  | None => false
  end.

(** ** The context registry and the namespace activator *)

Definition with_Contexts (m : gmap string Context.t) (k : K9s) : K9s :=
  mkK9s m (activeContext k) (manualCommand k) (Logger_of k) (ScreenDumpDir k).
Definition with_activeContext (a : option string) (k : K9s) : K9s :=
  mkK9s (Contexts k) a (manualCommand k) (Logger_of k) (ScreenDumpDir k).
Definition with_manualCommand (c : option string) (k : K9s) : K9s :=
  mkK9s (Contexts k) (activeContext k) c (Logger_of k) (ScreenDumpDir k).
Definition with_Logger (l : option Logger) (k : K9s) : K9s :=
  mkK9s (Contexts k) (activeContext k) (manualCommand k) l (ScreenDumpDir k).

(** A write through a [*data.Context]. *)
Definition update_ctx (p : string) (f : Context.t -> Context.t) : M unit :=
  k ← get_K9s; set_K9s (with_Contexts (alter f p (Contexts k)) k).

(** Modelled from the spec: [K9s.ActiveContext] returns the Context
    record pointed to by the Active Context Pointer and fails with
    NoActiveContextError if there is none. *)
Definition active_of (k : K9s) : result ctx_ref :=
  match activeContext k with
  | None => Err NoActiveContextError
  | Some n =>
      match Contexts k !! n with
      | Some ct => Ok (n, ct)
      | None => Err NoActiveContextError
      end
  end.

Definition K9s_ActiveContext : M (result ctx_ref) :=
  k ← get_K9s; mret (active_of k).

(** Modelled from the spec: [K9s.ActiveContextNamespace] delegates to
    the active Context's Namespace State and fails with the same error
    if there is no active context. *)
Definition K9s_ActiveContextNamespace : M (result string) :=
  ct ←? K9s_ActiveContext;
  mret (Ok (Namespace.Active (Context.Namespace ct.2))).

(** Modelled from the spec: [K9s.ActiveContextName], the accessor of
    the active context name. *)
Definition K9s_ActiveContextName : M string :=
  k ← get_K9s; mret (activeContextName k).

(** Modelled from the spec: [K9s.Reset] clears the Active Context
    Pointer without deleting Context records. *)
Definition K9s_Reset : M unit :=
  k ← get_K9s; set_K9s (with_activeContext None k).

Definition set_Active (ns : string) (favs : list string) (ct : Context.t) : Context.t :=
  Context.mk (Context.ClusterName ct) (Namespace.mk ns favs) (Context.View ct).

(** Modelled from the spec: [Namespace.SetActive] sets the Active field
    to [ns] and caps the favorites list by the limit of the settings;
    it fails with SettingsError exactly when the settings lookup
    fails. *)
Definition Namespace_SetActive (ct : ctx_ref) (ns : string) (ks : KubeSettings)
  : M (result unit) :=
  match lookupLimits ks with
  | None => mret (Err SettingsError)
  | Some lim =>
      _ ← update_ctx ct.1 (fun c =>
            set_Active ns
              (take (MaxFavorites lim) (Namespace.Favorites (Context.Namespace c))) c);
      mret (Ok tt)
  end.

(** Modelled from the spec: [Context.Validate] drops the favorites the
    live connection reports as non-existent; with a nil or unreachable
    connection it does nothing. *)
Definition Context_Validate (ct : ctx_ref) (cn : option Connection) (ks : KubeSettings)
  : M unit :=
  match cn with
  | None => mret tt
  | Some live =>
      if Reachable live then
        update_ctx ct.1 (fun c =>
          set_Active (Namespace.Active (Context.Namespace c))
            (filter (fun n => Is_true (NamespaceExists live n))
               (Namespace.Favorites (Context.Namespace c))) c)
      else mret tt
  end.

Section WithEnv.
Context (env : Env).

(** Modelled from the spec: [K9s.ActivateContext] looks up or lazily
    creates the Context record for [n], makes it the active one and
    returns it; it fails with NotFoundError only if [n] is empty. *)
Definition K9s_ActivateContext (n : string) : M (result ctx_ref) :=
  if String.eqb n "" then mret (Err (NotFoundError n))
  else
    k ← get_K9s;
    let ct := default (NewContext env n) (Contexts k !! n) in
    _ ← set_K9s (with_activeContext (Some n) (with_Contexts (<[n := ct]> (Contexts k)) k));
    mret (Ok (n, ct)).

(** [data.EnsureDirPath], [K9s.Save] and [os.WriteFile] act on the
    outside world: the call is recorded, the environment answers. *)
Definition EnsureDirPath (path : string) (dirmod : Z) : M (result unit) :=
  _ ← emit (EvEnsureDirPath path dirmod);
  mret (data_EnsureDirPath env path dirmod).

Definition K9s_Save_call : M (result unit) :=
  k ← get_K9s;
  _ ← emit (EvK9sSave k);
  mret (K9s_Save env k).

Definition WriteFile (path : string) (data : list Byte.byte) (perm : Z)
  : M (result unit) :=
  _ ← emit (EvWriteFile path data perm);
  mret (os_WriteFile env path data perm).

Definition log_Msgf (l : level) (format : string) (args : list arg) : M unit :=
  emit (EvLog l format args).

End WithEnv.

(** ** The methods of [Config] *)

Section Methods.
Context (env : Env).

(** [NewConfig]: [NewK9s(nil, ks)] is given by its result [k]. *)
Definition NewConfig (k : K9s) (ks : KubeSettings) : Config :=
  mkConfig k None ks.

Definition ContextAliasesPath : M string :=
  r ← K9s_ActiveContext;
  match r with
  | Err _ => mret ""
  | Ok ct =>
      k ← get_K9s;
      mret (AppContextAliasesFile env (Context.ClusterName ct.2) (activeContextName k))
  end.

Definition ContextPluginsPath : M string :=
  r ← K9s_ActiveContext;
  match r with
  | Err _ => mret ""
  | Ok ct =>
      k ← get_K9s;
      mret (AppContextPluginsFile env (Context.ClusterName ct.2) (activeContextName k))
  end.

Definition SetActiveNamespace (ns : string) : M (result unit) :=
  ct ←? K9s_ActiveContext;
  ks ← get_settings;
  Namespace_SetActive ct ns ks.

Definition Refine (flags : option ConfigFlags.t) (k9sFlags : option Flags)
    (cfg : client_Config) : M (result unit) :=
  flags ← deref flags;
  _ ←? (if isSet (ConfigFlags.Context flags) then
          n ← deref (ConfigFlags.Context flags);
          _ ←? K9s_ActivateContext env n;
          mret (Ok tt)
        else
          n ←? mret (CurrentContextName cfg);
          _ ←? K9s_ActivateContext env n;
          mret (Ok tt));
  name ← K9s_ActiveContextName;
  _ ← log_Msgf DebugLevel "Active Context %q" [AStr name];
  all ← (if is_nil k9sFlags then mret false
         else kf ← deref k9sFlags; mret (IsBoolSet (AllNamespaces kf)));
  ns ←? (if all : bool then mret (Ok NamespaceAll)
         else if isSet (ConfigFlags.Namespace flags) then
           v ← deref (ConfigFlags.Namespace flags); mret (Ok v)
         else K9s_ActiveContextNamespace);
  let ns := if String.eqb ns "" then DefaultNamespace env else ns in
  _ ←? SetActiveNamespace ns;
  k ← get_K9s;
  EnsureDirPath env (K9s_GetScreenDumpDir env k) (DefaultDirMod env).

Definition Reset : M unit := K9s_Reset.

Definition SetCurrentContext (n : string) : M (result ctx_ref) :=
  r ← K9s_ActivateContext env n;
  match r with
  | Err e => mret (Err (Wrapped "set current context %q failed" e))
  | Ok ct => mret (Ok ct)
  end.

Definition CurrentContext : M (result ctx_ref) := K9s_ActiveContext.

Definition ActiveNamespace : M string :=
  r ← K9s_ActiveContextNamespace;
  match r with
  | Err e =>
      _ ← log_Msgf ErrorLevel "Unable to assert active namespace. Using default" [AErr e];
      mret (DefaultNamespace env)
  | Ok ns => mret ns
  end.

Definition ValidateFavorites : M unit :=
  r ← K9s_ActiveContext;
  match r with
  | Err _ => mret tt
  | Ok ct =>
      cn ← get_conn;
      ks ← get_settings;
      Context_Validate ct cn ks
  end.

(** A nil slice is the empty list. *)
Definition FavNamespaces : M (list string) :=
  r ← K9s_ActiveContext;
  match r with
  | Err _ => mret []
  | Ok ct => mret (Namespace.Favorites (Context.Namespace ct.2))
  end.

Definition ActiveView : M string :=
  r ← K9s_ActiveContext;
  match r with
  | Err _ => mret (DefaultView env)
  | Ok ct =>
      let cmd := View.Active (Context.View ct.2) in
      k ← get_K9s;
      set ← (if is_nil (manualCommand k) then mret false
             else v ← deref (manualCommand k); mret (negb (String.eqb v "")));
      if set : bool then
        cmd ← deref (manualCommand k);
        _ ← set_K9s (with_manualCommand (Some "") k);
        mret cmd
      else mret cmd
  end.

Definition SetActiveView (view : string) : M unit :=
  r ← K9s_ActiveContext;
  match r with
  | Ok ct =>
      update_ctx ct.1 (fun c =>
        Context.mk (Context.ClusterName c) (Context.Namespace c) (View.mk view))
  | Err _ => mret tt
  end.

Definition GetConnection : M (option Connection) := get_conn.

Definition SetConnection (cn : option Connection) : M unit :=
  _ ← set_conn cn;
  match cn with
  | Some live => k ← get_K9s; set_K9s (K9s_resetConnection env live k)
  | None => mret tt
  end.

Definition ActiveContextName : M string :=
  k ← get_K9s; mret (activeContextName k).

Definition Load (path : string) : M (result unit) :=
  f ←? mret (os_ReadFile env path);
  cfg ←? mret (yaml_Unmarshal env f);
  _ ← match cfg with
      | Some loaded => k ← get_K9s; set_K9s (K9s_Refine env k loaded)
      | None => mret tt
      end;
  k ← get_K9s;
  _ ← match Logger_of k with
      | None => set_K9s (with_Logger (Some (NewLogger env)) k)
      | Some _ => mret tt
      end;
  mret (Ok tt).

Definition Validate : M unit :=
  k ← get_K9s;
  cn ← get_conn;
  ks ← get_settings;
  set_K9s (K9s_Validate env cn ks k).

Definition SaveFile (path : string) : M (result unit) :=
  _ ←? EnsureDirPath env path (DefaultDirMod env);
  k ← get_K9s;
  match yaml_Marshal env k with
  | Err e =>
      _ ← log_Msgf ErrorLevel "[Config] Unable to save K9s config file: %v" [AErr e];
      mret (Err e)
  | Ok cfg => WriteFile env path cfg 420 (* 0644 *)
  end.

Definition Save : M (result unit) :=
  _ ← Validate;
  _ ←? K9s_Save_call env;
  SaveFile (AppConfigFile env).

Definition YamlExtension (path : string) : M string :=
  if negb (isYamlFile path) then
    _ ← log_Msgf ErrorLevel "Config: File %s is not a yaml file" [AStr path];
    mret path
  else
    let path := strings_TrimSuffix path (filepath_Ext path) in
    let result := path ++ ".yml" in
    if IsNotExist (os_Stat env result) then mret (path ++ ".yaml")
    else mret result.

End Methods.

(** ** The specification's reading of flag reconciliation *)

(** The all-namespaces boolean flag is set. *)
Definition all_namespaces_set (k9sFlags : option Flags) : bool :=
  match k9sFlags with
  | Some kf => IsBoolSet (AllNamespaces kf)
  | None => false
  end.

(** The context name: the explicit flag if set and non-empty, otherwise
    the current-context name of the live connection. *)
Definition spec_context_name (flags : ConfigFlags.t) (cfg : client_Config)
  : result string :=
  match ConfigFlags.Context flags with
  | Some v => if String.eqb v "" then CurrentContextName cfg else Ok v
  | None => CurrentContextName cfg
  end.

(** The namespace: the sentinel if the all-namespaces flag is set, else
    the explicit flag if non-empty, else the persisted value; the
    default replaces an empty result. *)
Definition spec_namespace (env : Env) (all : bool) (nsFlag : option string)
    (persisted : string) : string :=
  let resolved :=
    if all then "all"
    else match nsFlag with
         | Some v => if String.eqb v "" then persisted else v
         | None => persisted
         end in
  if String.eqb resolved "" then DefaultNamespace env else resolved.

(** The logger a document has after [Load]: its own, or the default
    one if it had none. *)
Definition ensure_Logger (env : Env) (k : K9s) : K9s :=
  match Logger_of k with
  | None => with_Logger (Some (NewLogger env)) k
  | Some _ => k
  end.

(** [n] consecutive calls of a method, with their results in order. *)
Fixpoint calls {A} (n : nat) (m : M A) : M (list A) :=
  match n with
  | O => mret []
  | S n' => a ← m; rest ← calls n' m; mret (a :: rest)
  end.

(** ** A concrete environment and concrete states *)

Definition demo_context (ns view : string) : Context.t :=
  Context.mk "kind" (Namespace.mk ns ["kube-system"; "ghost"]) (View.mk view).

(** The registry a saved file holds. *)
Definition demo_loaded : K9s :=
  mkK9s {[ "prod" := demo_context "web" "dp" ]} None None None "/var/dumps".

(** Three files can be read, [os.Stat] finds nothing, every write
    succeeds. *)
Definition demo_env : Env := {|
  DefaultNamespace := "default";
  DefaultView := "po";
  DefaultDirMod := 484;
  AppConfigFile := "/home/u/.config/k9s/config.yaml";
  AppContextAliasesFile := fun cl ct => "/ctx/" ++ cl ++ "/" ++ ct ++ "/aliases.yaml";
  AppContextPluginsFile := fun cl ct => "/ctx/" ++ cl ++ "/" ++ ct ++ "/plugins.yaml";
  NewContext := fun n => Context.mk n (Namespace.mk "" []) (View.mk "po");
  NewLogger := mkLogger [("tail", 100%Z)];
  K9s_Refine := fun k loaded =>
    with_Contexts (Contexts loaded ∪ Contexts k)
      (with_Logger (from_option Some (Logger_of k) (Logger_of loaded)) k);
  K9s_Validate := fun _ _ k => with_Logger (Some (mkLogger [])) k;
  K9s_Save := fun _ => Ok tt;
  K9s_GetScreenDumpDir := ScreenDumpDir;
  K9s_resetConnection := fun _ k => k;
  yaml_Unmarshal := fun b =>
    match b with
    | [] => Ok None
    | [Byte.x6b] => Ok (Some demo_loaded)
    | _ => Err (DecodeError "yaml: unmarshal errors")
    end;
  yaml_Marshal := fun k => Ok [Byte.x6b; Byte.x39; Byte.x73];
  os_Stat := fun p => Some (IOError ENOENT p);
  os_ReadFile := fun p =>
    if String.eqb p "empty.yaml" then Ok []
    else if String.eqb p "full.yaml" then Ok [Byte.x6b]
    else if String.eqb p "bad.yaml" then Ok [Byte.x3a]
    else Err (IOError ENOENT p);
  os_WriteFile := fun _ _ _ => Ok tt;
  data_EnsureDirPath := fun _ _ => Ok tt
|}.

(** As [demo_env], but the registry cannot be saved. *)
Definition demo_env_save_fails : Env :=
  with_K9s_Save (fun _ => Err (IOError EACCES "/ctx/kind/dev/config.yaml")) demo_env.

(** As [demo_env], but no directory can be created. *)
Definition demo_env_readonly : Env :=
  with_data_EnsureDirPath (fun p _ => Err (IOError EACCES p)) demo_env.

(** As [demo_env], but the document cannot be serialized. *)
Definition demo_env_marshal_fails : Env :=
  with_yaml_Marshal (fun _ => Err (DecodeError "yaml: cannot marshal")) demo_env.

(** As [demo_env], but only the file [present] exists on disk. *)
Definition demo_env_on_disk (present : string) : Env :=
  with_os_Stat
    (fun p => if String.eqb p present then None else Some (IOError ENOENT p))
    demo_env.

Definition demo_settings : KubeSettings := mkKubeSettings (Some (mkLimits 9)).

(** A freshly constructed configuration started with a manual command:
    no context has been activated yet. *)
Definition demo_fresh : St :=
  mkSt (NewConfig (mkK9s ∅ None (Some "pods") None "/tmp/dumps") demo_settings) [].

(** Context "dev" is active, with persisted namespace "staging" and
    persisted view "svc"; the manual command is still pending. *)
Definition demo_active : St :=
  mkSt (mkConfig
          (mkK9s {[ "dev" := demo_context "staging" "svc" ]} (Some "dev")
                 (Some "pods") None "/tmp/dumps")
          None demo_settings) [].

(** The configuration of [demo_active] once validated by [demo_env]. *)
Definition demo_validated : Config :=
  mkConfig (with_Logger (Some (mkLogger [])) (K9s_of (this demo_active)))
    None demo_settings.

(** Context "dev" is known with persisted namespace "staging" but not
    yet active. *)
Definition demo_persisted : St :=
  mkSt (mkConfig
          (mkK9s {[ "dev" := demo_context "staging" "svc" ]} None None None "/tmp/dumps")
          None demo_settings) [].

(** ** Properties *)

(** *** Running the monad *)

Lemma run_bind {A B} (m : M A) (f : A -> M B) s :
  (m ≫= f) s = match m s with
               | Returns a s' => f a s'
               | Panics msg => Panics msg
               end.
Proof. reflexivity. Qed.

Lemma run_ret {A} (a : A) s : (mret a : M A) s = Returns a s.
Proof. reflexivity. Qed.

Lemma St_eta s : mkSt (this s) (trace s) = s.
Proof. by destruct s. Qed.

Lemma Config_eta c : mkConfig (K9s_of c) (conn c) (settings c) = c.
Proof. by destruct c. Qed.

Lemma K9s_eta k :
  mkK9s (Contexts k) (activeContext k) (manualCommand k) (Logger_of k) (ScreenDumpDir k) = k.
Proof. by destruct k. Qed.

Ltac run :=
  repeat (rewrite ?run_bind, ?run_ret;
          cbn [get_K9s get_conn get_settings set_K9s set_conn emit deref is_nil
               this trace K9s_of conn settings fst snd]).

(** *** The active context *)

Lemma K9s_ActiveContext_run s :
  K9s_ActiveContext s = Returns (active_of (K9s_of (this s))) s.
Proof. reflexivity. Qed.

Lemma active_of_None k : activeContext k = None -> active_of k = Err NoActiveContextError.
Proof. unfold active_of. by intros ->. Qed.

Lemma active_of_Ok k n ct :
  active_of k = Ok (n, ct) -> activeContext k = Some n /\ Contexts k !! n = Some ct.
Proof.
  unfold active_of. destruct (activeContext k) as [a|]; [|done].
  destruct (Contexts k !! a) eqn:E; [|done].
  intros [= <- <-]. done.
Qed.

Lemma active_of_name k n ct : active_of k = Ok (n, ct) -> activeContextName k = n.
Proof. intros [H _]%active_of_Ok. unfold activeContextName. by rewrite H. Qed.

Lemma K9s_ActiveContextNamespace_run s :
  K9s_ActiveContextNamespace s =
  Returns match active_of (K9s_of (this s)) with
          | Ok ct => Ok (Namespace.Active (Context.Namespace ct.2))
          | Err e => Err e
          end s.
Proof.
  unfold K9s_ActiveContextNamespace. rewrite run_bind, K9s_ActiveContext_run.
  by destruct (active_of _).
Qed.

Lemma ContextPaths_lookup_error (env : Env) (s : St) (e : error) :
  active_of (K9s_of (this s)) = Err e ->
  ContextAliasesPath env s = Returns "" s /\
  ContextPluginsPath env s = Returns "" s.
Proof.
  intros He. unfold ContextAliasesPath, ContextPluginsPath.
  rewrite !run_bind, K9s_ActiveContext_run, He. done.
Qed.

(** C10. [ContextAliasesPath] and [ContextPluginsPath] return the empty
    string while no context has been activated; with an active context
    they return the file path built from its cluster name and the
    active context name. Neither panics nor changes the state. *)
Theorem ContextPaths_active_or_empty (env : Env) (s : St) :
  (activeContext (K9s_of (this s)) = None ->
     ContextAliasesPath env s = Returns "" s /\
     ContextPluginsPath env s = Returns "" s) /\
  (forall n ct, active_of (K9s_of (this s)) = Ok (n, ct) ->
     ContextAliasesPath env s =
       Returns (AppContextAliasesFile env (Context.ClusterName ct) n) s /\
     ContextPluginsPath env s =
       Returns (AppContextPluginsFile env (Context.ClusterName ct) n) s).
Proof.
  split.
  - intros Hnone. apply (ContextPaths_lookup_error env s NoActiveContextError).
    by apply active_of_None.
  - intros n ct Hact. unfold ContextAliasesPath, ContextPluginsPath.
    rewrite !run_bind, K9s_ActiveContext_run, Hact. run.
    by rewrite (active_of_name _ _ _ Hact).
Qed.

Lemma ContextPaths_active_or_empty_witness :
  (ContextAliasesPath demo_env demo_fresh = Returns "" demo_fresh /\
   ContextPluginsPath demo_env demo_fresh = Returns "" demo_fresh) /\
  (ContextAliasesPath demo_env demo_active =
     Returns "/ctx/kind/dev/aliases.yaml" demo_active /\
   ContextPluginsPath demo_env demo_active =
     Returns "/ctx/kind/dev/plugins.yaml" demo_active).
Proof.
  split.
  - apply (proj1 (ContextPaths_active_or_empty demo_env demo_fresh)).
    reflexivity.
  - apply (proj2 (ContextPaths_active_or_empty demo_env demo_active)
             "dev" (demo_context "staging" "svc")).
    vm_compute. reflexivity.
Defined.

(** *** Read-only accessors *)

Lemma ActiveNamespace_run (env : Env) (s : St) :
  ActiveNamespace env s =
  match active_of (K9s_of (this s)) with
  | Ok ct => Returns (Namespace.Active (Context.Namespace ct.2)) s
  | Err e =>
      Returns (DefaultNamespace env)
        (mkSt (this s)
           (trace s ++
            [EvLog ErrorLevel "Unable to assert active namespace. Using default" [AErr e]]))
  end.
Proof.
  unfold ActiveNamespace. rewrite run_bind, K9s_ActiveContextNamespace_run.
  by destruct (active_of _).
Qed.

(** C6. [ActiveNamespace] always returns a namespace: it neither panics
    nor has an error to return, and it leaves the configuration as it
    was. Whenever the lookup of the active namespace fails, as it does
    with NoActiveContextError while no context is active, the result is
    the default namespace constant. *)
Theorem ActiveNamespace_recovers (env : Env) (s : St) :
  exists ns s',
    ActiveNamespace env s = Returns ns s' /\
    this s' = this s /\
    (forall e, K9s_ActiveContextNamespace s = Returns (Err e) s ->
       ns = DefaultNamespace env) /\
    (activeContext (K9s_of (this s)) = None ->
       K9s_ActiveContextNamespace s = Returns (Err NoActiveContextError) s /\
       ns = DefaultNamespace env).
Proof.
  rewrite ActiveNamespace_run, K9s_ActiveContextNamespace_run.
  destruct (active_of (K9s_of (this s))) as [ct|e] eqn:E.
  - eexists _, _. split; [reflexivity|]. split; [reflexivity|]. split.
    + intros e [=].
    + intros Hnone. apply active_of_None in Hnone. congruence.
  - eexists _, _. split; [reflexivity|]. split; [reflexivity|]. split.
    + done.
    + intros Hnone. apply active_of_None in Hnone. split; [congruence | done].
Qed.

Lemma ActiveNamespace_recovers_witness :
  exists s', ActiveNamespace demo_env demo_fresh = Returns "default" s'.
Proof.
  destruct (ActiveNamespace_recovers demo_env demo_fresh)
    as (ns & s' & Hrun & _ & Herr & Hnone).
  exists s'.
  rewrite Hrun, (Herr NoActiveContextError eq_refl).
  destruct (Hnone eq_refl) as [_ ->].
  reflexivity.
Defined.

(** *** Favorites validation *)

Lemma Context_Validate_offline (ct : ctx_ref) (cn : option Connection)
    (ks : KubeSettings) (s : St) :
  match cn with Some live => Reachable live = false | None => True end ->
  Context_Validate ct cn ks s = Returns tt s.
Proof.
  unfold Context_Validate. destruct cn as [live|]; [|done]. by intros ->.
Qed.

(** C8. [ValidateFavorites] has no error to return and never panics.
    When no context is active, or when the connection is nil, it leaves
    the whole configuration, the Favorites list included, and the
    outside world as they were. *)
Theorem ValidateFavorites_best_effort (s : St) :
  (exists s', ValidateFavorites s = Returns tt s') /\
  (forall e, active_of (K9s_of (this s)) = Err e ->
     ValidateFavorites s = Returns tt s) /\
  (conn (this s) = None ->
     ValidateFavorites s = Returns tt s /\
     FavNamespaces s = Returns
       match active_of (K9s_of (this s)) with
       | Ok ct => Namespace.Favorites (Context.Namespace ct.2)
       | Err _ => []
       end s).
Proof.
  unfold ValidateFavorites, FavNamespaces.
  rewrite !run_bind, K9s_ActiveContext_run.
  destruct (active_of (K9s_of (this s))) as [ct|e] eqn:E.
  - split; [|split].
    + run. unfold Context_Validate.
      destruct (conn (this s)) as [live|]; [|by eexists].
      destruct (Reachable live); [|by eexists].
      unfold update_ctx. run. by eexists.
    + intros e [=].
    + intros Hnil. run. by rewrite Hnil.
  - split; [by eexists|]. split; [done|]. done.
Qed.

Lemma ValidateFavorites_best_effort_witness :
  ValidateFavorites demo_fresh = Returns tt demo_fresh /\
  ValidateFavorites demo_active = Returns tt demo_active /\
  FavNamespaces demo_active = Returns ["kube-system"; "ghost"] demo_active.
Proof.
  split.
  - apply (proj1 (proj2 (ValidateFavorites_best_effort demo_fresh))
             NoActiveContextError).
    reflexivity.
  - apply (proj2 (proj2 (ValidateFavorites_best_effort demo_active))).
    reflexivity.
Defined.

(** With a live connection the favorites it does not know are dropped:
    validation is not a no-op in general. *)
Example ValidateFavorites_online :
  let live := mkConnection true (fun n => String.eqb n "kube-system") in
  (_ ← SetConnection demo_env (Some live);
   _ ← ValidateFavorites;
   FavNamespaces) demo_active
  = Returns ["kube-system"]
      (mkSt (mkConfig
               (mkK9s {[ "dev" := Context.mk "kind"
                                    (Namespace.mk "staging" ["kube-system"])
                                    (View.mk "svc") ]}
                      (Some "dev") (Some "pods") None "/tmp/dumps")
               (Some live) demo_settings) []).
Proof. vm_compute. reflexivity. Qed.

(** *** The manual command *)

Lemma ActiveView_no_context (env : Env) (s : St) (e : error) :
  active_of (K9s_of (this s)) = Err e ->
  ActiveView env s = Returns (DefaultView env) s.
Proof.
  intros He. unfold ActiveView. by rewrite run_bind, K9s_ActiveContext_run, He.
Qed.

Lemma ActiveView_consumes (env : Env) (s : St) (n m : string) (ct : Context.t) :
  active_of (K9s_of (this s)) = Ok (n, ct) ->
  manualCommand (K9s_of (this s)) = Some m ->
  m <> "" ->
  ActiveView env s =
  Returns m (mkSt (mkConfig (with_manualCommand (Some "") (K9s_of (this s)))
                     (conn (this s)) (settings (this s))) (trace s)).
Proof.
  intros Hact Hcmd Hne. unfold ActiveView.
  rewrite run_bind, K9s_ActiveContext_run, Hact. run. rewrite Hcmd. run.
  apply String.eqb_neq in Hne. rewrite Hne. cbn [negb]. by run.
Qed.

Lemma ActiveView_persisted (env : Env) (s : St) (n : string) (ct : Context.t) :
  active_of (K9s_of (this s)) = Ok (n, ct) ->
  manualCommand (K9s_of (this s)) = None \/ manualCommand (K9s_of (this s)) = Some "" ->
  ActiveView env s = Returns (View.Active (Context.View ct)) s.
Proof.
  intros Hact Hcmd. unfold ActiveView.
  rewrite run_bind, K9s_ActiveContext_run, Hact. run.
  by destruct Hcmd as [-> | ->].
Qed.

Lemma calls_ActiveView_persisted (env : Env) (s : St) (n : string) (ct : Context.t) j :
  active_of (K9s_of (this s)) = Ok (n, ct) ->
  manualCommand (K9s_of (this s)) = None \/ manualCommand (K9s_of (this s)) = Some "" ->
  calls j (ActiveView env) s = Returns (replicate j (View.Active (Context.View ct))) s.
Proof.
  intros Hact Hcmd. induction j as [|j IH]; [done|].
  cbn [calls replicate]. rewrite run_bind, (ActiveView_persisted env s n ct Hact Hcmd).
  by rewrite run_bind, IH.
Qed.

(** C7, as the code has it. While no context is active, [ActiveView]
    returns the default view and leaves the state, the pending manual
    command included, as it was. With an active context and a non-nil,
    non-empty manual command, the first call of [ActiveView] returns
    the manual command and clears it, and each of the calls that follow
    returns the persisted Active view of the context and changes
    nothing. *)
Theorem ActiveView_manual_once (env : Env) (s : St) :
  (activeContext (K9s_of (this s)) = None ->
     ActiveView env s = Returns (DefaultView env) s) /\
  (forall e, active_of (K9s_of (this s)) = Err e ->
     ActiveView env s = Returns (DefaultView env) s) /\
  (forall n ct m j,
     active_of (K9s_of (this s)) = Ok (n, ct) ->
     manualCommand (K9s_of (this s)) = Some m ->
     m <> "" ->
     let s1 := mkSt (mkConfig (with_manualCommand (Some "") (K9s_of (this s)))
                       (conn (this s)) (settings (this s))) (trace s) in
     ActiveView env s = Returns m s1 /\
     calls (S j) (ActiveView env) s =
       Returns (m :: replicate j (View.Active (Context.View ct))) s1).
Proof.
  split; [|split].
  - intros Hnone. apply (ActiveView_no_context env s NoActiveContextError).
    by apply active_of_None.
  - intros e. apply ActiveView_no_context.
  - intros n ct m j Hact Hcmd Hne s1.
    pose proof (ActiveView_consumes env s n m ct Hact Hcmd Hne) as Hfirst.
    split; [exact Hfirst|].
    cbn [calls]. rewrite run_bind, Hfirst. fold s1.
    rewrite run_bind, (calls_ActiveView_persisted env s1 n ct j); [done| |by right].
    exact Hact.
Qed.

Lemma ActiveView_manual_once_witness :
  (manualCommand (K9s_of (this demo_fresh)) = Some "pods" /\
   ActiveView demo_env demo_fresh = Returns "po" demo_fresh /\
   calls 2 (ActiveView demo_env) demo_fresh = Returns ["po"; "po"] demo_fresh) /\
  (ActiveView demo_env demo_active =
     Returns "pods"
       (mkSt (mkConfig
                (mkK9s {[ "dev" := demo_context "staging" "svc" ]} (Some "dev")
                       (Some "") None "/tmp/dumps")
                None demo_settings) []) /\
   calls 3 (ActiveView demo_env) demo_active =
     Returns ["pods"; "svc"; "svc"]
       (mkSt (mkConfig
                (mkK9s {[ "dev" := demo_context "staging" "svc" ]} (Some "dev")
                       (Some "") None "/tmp/dumps")
                None demo_settings) [])).
Proof.
  pose proof (ActiveView_manual_once demo_env demo_fresh) as (Hnone & Herr & _).
  pose proof (ActiveView_manual_once demo_env demo_active) as (_ & _ & Hact).
  split.
  - split; [reflexivity|].
    pose proof (Hnone eq_refl) as Hfirst.
    split; [exact Hfirst|].
    cbn [calls]. rewrite !run_bind, (Herr NoActiveContextError eq_refl).
    rewrite !run_bind, Hfirst. reflexivity.
  - assert (Hctx : active_of (K9s_of (this demo_active))
                   = Ok ("dev", demo_context "staging" "svc"))
      by (vm_compute; reflexivity).
    assert (Hne : "pods" <> "") by discriminate.
    split.
    + apply (Hact "dev" (demo_context "staging" "svc") "pods" 0 Hctx eq_refl Hne).
    + apply (Hact "dev" (demo_context "staging" "svc") "pods" 2 Hctx eq_refl Hne).
Defined.

(** C7, as stated, fails before any context is active: the first call
    returns the default view, not the pending manual command, and does
    not clear it; the command is returned by a later call, once a
    context is active. *)
Lemma ActiveView_manual_first_call_counterexample :
  manualCommand (K9s_of (this demo_fresh)) = Some "pods" /\
  "pods" <> "" /\
  ~ (exists s', ActiveView demo_env demo_fresh = Returns "pods" s') /\
  ActiveView demo_env demo_fresh = Returns "po" demo_fresh /\
  exists s',
    (_ ← ActiveView demo_env;
     _ ← K9s_ActivateContext demo_env "dev";
     ActiveView demo_env) demo_fresh = Returns "pods" s'.
Proof.
  split; [reflexivity|]. split; [discriminate|].
  split; [intros [s' [=]]|]. split; [reflexivity|].
  eexists. vm_compute. reflexivity.
Qed.

(** *** Load *)

Lemma Load_success (env : Env) (path : string) (s : St) f cfg :
  os_ReadFile env path = Ok f ->
  yaml_Unmarshal env f = Ok cfg ->
  Load env path s =
  Returns (Ok tt)
    (mkSt (mkConfig
             (ensure_Logger env
                match cfg with
                | Some loaded => K9s_Refine env (K9s_of (this s)) loaded
                | None => K9s_of (this s)
                end)
             (conn (this s)) (settings (this s)))
          (trace s)).
Proof.
  intros Hread Hdec. unfold Load. run. rewrite Hread. run. rewrite Hdec. run.
  unfold ensure_Logger. destruct cfg as [loaded|]; run.
  - by destruct (Logger_of (K9s_Refine env (K9s_of (this s)) loaded)).
  - destruct (Logger_of (K9s_of (this s))) eqn:E; run; [|done].
    by rewrite Config_eta, St_eta.
Qed.

(** C4. [Load] returns a read failure or a decode failure unchanged and
    leaves the state as it was. On success it merges the loaded [K9s]
    object only if the file has one: when the file has none, the
    in-memory document is unchanged but for the logger configuration,
    which is set to the default one if it was absent; when the file has
    one, the default logger is supplied after the merge if still
    absent. Connection, settings and the outside world are untouched. *)
Theorem Load_frame (env : Env) (path : string) (s : St) :
  (forall e, os_ReadFile env path = Err e -> Load env path s = Returns (Err e) s) /\
  (forall f e, os_ReadFile env path = Ok f -> yaml_Unmarshal env f = Err e ->
     Load env path s = Returns (Err e) s) /\
  (forall f, os_ReadFile env path = Ok f -> yaml_Unmarshal env f = Ok None ->
     exists s',
       Load env path s = Returns (Ok tt) s' /\
       conn (this s') = conn (this s) /\
       settings (this s') = settings (this s) /\
       trace s' = trace s /\
       with_Logger (Logger_of (K9s_of (this s))) (K9s_of (this s')) = K9s_of (this s) /\
       Logger_of (K9s_of (this s')) =
         match Logger_of (K9s_of (this s)) with
         | Some l => Some l
         | None => Some (NewLogger env)
         end) /\
  (forall f loaded, os_ReadFile env path = Ok f ->
     yaml_Unmarshal env f = Ok (Some loaded) ->
     exists s',
       Load env path s = Returns (Ok tt) s' /\
       conn (this s') = conn (this s) /\
       settings (this s') = settings (this s) /\
       trace s' = trace s /\
       K9s_of (this s') = ensure_Logger env (K9s_Refine env (K9s_of (this s)) loaded)).
Proof.
  repeat split.
  - intros e Hread. unfold Load. run. by rewrite Hread.
  - intros f e Hread Hdec. unfold Load. run. rewrite Hread. run. by rewrite Hdec.
  - intros f Hread Hdec. eexists. split; [by apply (Load_success env path s f None)|].
    cbn [this trace conn settings K9s_of]. repeat split.
    + unfold ensure_Logger. destruct (Logger_of (K9s_of (this s))) eqn:E.
      * rewrite <- E. unfold with_Logger. apply K9s_eta.
      * unfold with_Logger. cbn. rewrite <- E. apply K9s_eta.
    + unfold ensure_Logger. by destruct (Logger_of (K9s_of (this s))) eqn:E.
  - intros f loaded Hread Hdec. eexists.
    split; [by apply (Load_success env path s f (Some loaded))|]. done.
Qed.

Lemma Load_frame_witness :
  Load demo_env "missing.yaml" demo_active
    = Returns (Err (IOError ENOENT "missing.yaml")) demo_active /\
  Load demo_env "bad.yaml" demo_active
    = Returns (Err (DecodeError "yaml: unmarshal errors")) demo_active /\
  (exists s',
     Load demo_env "empty.yaml" demo_active = Returns (Ok tt) s' /\
     Contexts (K9s_of (this s')) = Contexts (K9s_of (this demo_active)) /\
     Logger_of (K9s_of (this s')) = Some (mkLogger [("tail", 100%Z)])) /\
  (exists s',
     Load demo_env "full.yaml" demo_active = Returns (Ok tt) s' /\
     K9s_of (this s') =
       mkK9s {[ "dev" := demo_context "staging" "svc";
                "prod" := demo_context "web" "dp" ]}
             (Some "dev") (Some "pods") (Some (mkLogger [("tail", 100%Z)]))
             "/tmp/dumps").
Proof.
  pose proof (Load_frame demo_env "missing.yaml" demo_active) as (Hread & _).
  pose proof (Load_frame demo_env "bad.yaml" demo_active) as (_ & Hdec & _).
  pose proof (Load_frame demo_env "empty.yaml" demo_active) as (_ & _ & Hnone & _).
  pose proof (Load_frame demo_env "full.yaml" demo_active) as (_ & _ & _ & Hsome).
  split; [apply Hread; reflexivity|].
  split; [apply (Hdec [Byte.x3a]); reflexivity|].
  split.
  - destruct (Hnone [] eq_refl eq_refl) as (s' & Hrun & _ & _ & _ & Hsame & Hlog).
    exists s'. split; [exact Hrun|]. split; [|exact Hlog].
    by rewrite <- Hsame.
  - destruct (Hsome [Byte.x6b] demo_loaded eq_refl eq_refl)
      as (s' & Hrun & _ & _ & _ & Hk).
    exists s'. split; [exact Hrun|]. rewrite Hk. vm_compute. reflexivity.
Defined.

(** *** Save *)

Lemma SaveFile_run (env : Env) (path : string) (s : St) :
  SaveFile env path s =
  let ensured := mkSt (this s) (trace s ++ [EvEnsureDirPath path (DefaultDirMod env)]) in
  match data_EnsureDirPath env path (DefaultDirMod env) with
  | Err e => Returns (Err e) ensured
  | Ok _ =>
      match yaml_Marshal env (K9s_of (this s)) with
      | Err e =>
          Returns (Err e)
            (mkSt (this s)
               (trace ensured ++
                [EvLog ErrorLevel "[Config] Unable to save K9s config file: %v" [AErr e]]))
      | Ok data =>
          Returns (os_WriteFile env path data 420)
            (mkSt (this s) (trace ensured ++ [EvWriteFile path data 420]))
      end
  end.
Proof.
  unfold SaveFile, EnsureDirPath, WriteFile, log_Msgf. run.
  destruct (data_EnsureDirPath env path (DefaultDirMod env)); [|done]. run.
  by destruct (yaml_Marshal env (K9s_of (this s))).
Qed.

(** C5, as the code has it. [Save] validates first: the registry that
    is saved and serialized is the validated one. If the registry save
    fails, its error is returned as it is, without wrapping, and
    nothing is written. Otherwise the parent directory of the
    configuration file is ensured with the fixed directory mode, then
    the document is serialized and written with file mode 0644; an
    error of any of these three steps is returned as it is, and no
    later step runs. *)
Theorem Save_sequence (env : Env) (s : St) :
  let k1 := K9s_Validate env (conn (this s)) (settings (this s)) (K9s_of (this s)) in
  let after tr := mkSt (mkConfig k1 (conn (this s)) (settings (this s))) (trace s ++ tr) in
  let path := AppConfigFile env in
  let ensure := EvEnsureDirPath path (DefaultDirMod env) in
  (forall e, K9s_Save env k1 = Err e ->
     Save env s = Returns (Err e) (after [EvK9sSave k1])) /\
  (K9s_Save env k1 = Ok tt ->
     (forall e, data_EnsureDirPath env path (DefaultDirMod env) = Err e ->
        Save env s = Returns (Err e) (after [EvK9sSave k1; ensure])) /\
     (data_EnsureDirPath env path (DefaultDirMod env) = Ok tt ->
        (forall e, yaml_Marshal env k1 = Err e ->
           Save env s =
           Returns (Err e)
             (after [EvK9sSave k1; ensure;
                     EvLog ErrorLevel "[Config] Unable to save K9s config file: %v"
                       [AErr e]])) /\
        (forall data, yaml_Marshal env k1 = Ok data ->
           Save env s =
           Returns (os_WriteFile env path data 420)
             (after [EvK9sSave k1; ensure; EvWriteFile path data 420])))).
Proof.
  intros k1 after path ensure.
  assert (Hrun : Save env s =
    match K9s_Save env k1 with
    | Err e => Returns (Err e) (after [EvK9sSave k1])
    | Ok _ => SaveFile env path (after [EvK9sSave k1])
    end).
  { unfold Save, Validate, K9s_Save_call. run. fold k1.
    by destruct (K9s_Save env k1). }
  rewrite Hrun. split.
  - by intros e ->.
  - intros ->. rewrite SaveFile_run. cbn [this trace K9s_of after].
    rewrite <- !app_assoc. cbn [app]. fold ensure. split.
    + by intros e ->.
    + intros ->. split.
      * intros e ->. unfold after. by rewrite <- app_assoc.
      * intros data ->. unfold after. by rewrite <- app_assoc.
Qed.

Lemma Save_sequence_witness :
  Save demo_env_save_fails demo_active =
    Returns (Err (IOError EACCES "/ctx/kind/dev/config.yaml"))
      (mkSt demo_validated [EvK9sSave (K9s_of demo_validated)]) /\
  Save demo_env_readonly demo_active =
    Returns (Err (IOError EACCES "/home/u/.config/k9s/config.yaml"))
      (mkSt demo_validated
         [EvK9sSave (K9s_of demo_validated);
          EvEnsureDirPath "/home/u/.config/k9s/config.yaml" 484]) /\
  Save demo_env_marshal_fails demo_active =
    Returns (Err (DecodeError "yaml: cannot marshal"))
      (mkSt demo_validated
         [EvK9sSave (K9s_of demo_validated);
          EvEnsureDirPath "/home/u/.config/k9s/config.yaml" 484;
          EvLog ErrorLevel "[Config] Unable to save K9s config file: %v"
            [AErr (DecodeError "yaml: cannot marshal")]]) /\
  Save demo_env demo_active =
    Returns (Ok tt)
      (mkSt demo_validated
         [EvK9sSave (K9s_of demo_validated);
          EvEnsureDirPath "/home/u/.config/k9s/config.yaml" 484;
          EvWriteFile "/home/u/.config/k9s/config.yaml"
            [Byte.x6b; Byte.x39; Byte.x73] 420]).
Proof.
  split; [|split; [|split]].
  - apply (proj1 (Save_sequence demo_env_save_fails demo_active)). reflexivity.
  - apply (proj1 (proj2 (Save_sequence demo_env_readonly demo_active) eq_refl)).
    reflexivity.
  - apply (proj1 (proj2 (proj2 (Save_sequence demo_env_marshal_fails demo_active)
                           eq_refl) eq_refl)).
    reflexivity.
  - apply (proj2 (proj2 (proj2 (Save_sequence demo_env demo_active) eq_refl) eq_refl)).
    reflexivity.
Defined.

(** C5, as stated, fails: when the registry save fails, [Save] returns
    that very error, which is not wrapped in a ValidationError. *)
Lemma Save_wraps_counterexample :
  exists e s',
    K9s_Save demo_env_save_fails
      (K9s_Validate demo_env_save_fails None demo_settings (K9s_of (this demo_active)))
      = Err e /\
    Save demo_env_save_fails demo_active = Returns (Err e) s' /\
    ~ (exists cause, e = ValidationError cause).
Proof.
  eexists _, _. split; [reflexivity|]. split; [reflexivity|].
  intros [cause [=]].
Qed.

(** *** YamlExtension *)

Lemma YamlExtension_recognized (env : Env) (path : string) (s : St) :
  isYamlFile path = true ->
  let stem := strings_TrimSuffix path (filepath_Ext path) in
  YamlExtension env path s =
  Returns (if IsNotExist (os_Stat env (stem ++ ".yml"))
           then stem ++ ".yaml" else stem ++ ".yml") s.
Proof.
  intros Hyaml stem. unfold YamlExtension. rewrite Hyaml. cbn [negb]. fold stem.
  by destruct (IsNotExist _).
Qed.

(** C2, as the code has it. A path whose extension is neither ".yml"
    nor ".yaml" is returned unchanged, whatever exists on disk, after
    an error is logged. Only a path with one of these two extensions is
    normalised: the extension is replaced by ".yml" unless [os.Stat]
    reports that this file does not exist, and by ".yaml" if it does. *)
Theorem YamlExtension_cases (env : Env) (path : string) (s : St) :
  (isYamlFile path = false ->
     YamlExtension env path s =
     Returns path
       (mkSt (this s)
          (trace s ++ [EvLog ErrorLevel "Config: File %s is not a yaml file" [AStr path]]))) /\
  (isYamlFile path = true ->
     let stem := strings_TrimSuffix path (filepath_Ext path) in
     YamlExtension env path s =
     Returns (if IsNotExist (os_Stat env (stem ++ ".yml"))
              then stem ++ ".yaml" else stem ++ ".yml") s).
Proof.
  split.
  - intros Hno. unfold YamlExtension, log_Msgf. rewrite Hno. cbn [negb]. by run.
  - apply YamlExtension_recognized.
Qed.

Lemma YamlExtension_cases_witness :
  (exists s', YamlExtension demo_env "cfg" demo_fresh = Returns "cfg" s') /\
  (exists s', YamlExtension (demo_env_on_disk "cfg.yaml") "cfg" demo_fresh
              = Returns "cfg" s') /\
  YamlExtension (demo_env_on_disk "etc/cfg.yml") "etc/cfg.yaml" demo_fresh
    = Returns "etc/cfg.yml" demo_fresh /\
  YamlExtension (demo_env_on_disk "etc/cfg.yaml") "etc/cfg.yml" demo_fresh
    = Returns "etc/cfg.yaml" demo_fresh.
Proof.
  split; [|split; [|split]].
  - eexists. apply (proj1 (YamlExtension_cases demo_env "cfg" demo_fresh)).
    reflexivity.
  - eexists.
    apply (proj1 (YamlExtension_cases (demo_env_on_disk "cfg.yaml") "cfg" demo_fresh)).
    reflexivity.
  - apply (proj2 (YamlExtension_cases (demo_env_on_disk "etc/cfg.yml")
                    "etc/cfg.yaml" demo_fresh)).
    reflexivity.
  - apply (proj2 (YamlExtension_cases (demo_env_on_disk "etc/cfg.yaml")
                    "etc/cfg.yml" demo_fresh)).
    reflexivity.
Defined.

(** C2, as stated, fails on the path "cfg": with neither "cfg.yml" nor
    "cfg.yaml" on disk the result is "cfg", not "cfg.yml"; with only
    "cfg.yaml" on disk the result is "cfg", not "cfg.yaml". *)
Lemma YamlExtension_bare_path_counterexample :
  isYamlFile "cfg" = false /\
  (IsNotExist (os_Stat demo_env "cfg.yml") = true /\
   IsNotExist (os_Stat demo_env "cfg.yaml") = true /\
   ~ (exists s', YamlExtension demo_env "cfg" demo_fresh = Returns "cfg.yml" s')) /\
  (IsNotExist (os_Stat (demo_env_on_disk "cfg.yaml") "cfg.yml") = true /\
   os_Stat (demo_env_on_disk "cfg.yaml") "cfg.yaml" = None /\
   ~ (exists s', YamlExtension (demo_env_on_disk "cfg.yaml") "cfg" demo_fresh
                 = Returns "cfg.yaml" s')).
Proof.
  split; [reflexivity|]. split.
  - split; [reflexivity|]. split; [reflexivity|]. intros [s' [=]].
  - split; [reflexivity|]. split; [reflexivity|]. intros [s' [=]].
Qed.

(** *** Refine *)

Lemma isSet_Some (v : string) : isSet (Some v) = negb (String.eqb v "").
Proof. by destruct v. Qed.

Lemma K9s_ActivateContext_run (env : Env) (n : string) (s : St) :
  K9s_ActivateContext env n s =
  if String.eqb n "" then Returns (Err (NotFoundError n)) s
  else
    let k := K9s_of (this s) in
    let ct := default (NewContext env n) (Contexts k !! n) in
    Returns (Ok (n, ct))
      (mkSt (mkConfig
               (with_activeContext (Some n) (with_Contexts (<[n := ct]> (Contexts k)) k))
               (conn (this s)) (settings (this s)))
            (trace s)).
Proof. unfold K9s_ActivateContext. by destruct (String.eqb n ""). Qed.

Lemma K9s_ActivateContext_Ok (env : Env) (n : string) (s s1 : St) (ct : ctx_ref) :
  K9s_ActivateContext env n s = Returns (Ok ct) s1 ->
  ct.1 = n /\
  ct.2 = default (NewContext env n) (Contexts (K9s_of (this s)) !! n) /\
  active_of (K9s_of (this s1)) = Ok ct /\
  conn (this s1) = conn (this s) /\
  settings (this s1) = settings (this s) /\
  trace s1 = trace s.
Proof.
  rewrite K9s_ActivateContext_run. destruct (String.eqb n ""); [done|].
  intros [= <- <-]. repeat split.
  unfold active_of. cbn. by rewrite lookup_insert_eq.
Qed.

Lemma K9s_ActivateContext_total (env : Env) (n : string) (s : St) :
  exists r s1, K9s_ActivateContext env n s = Returns r s1.
Proof.
  rewrite K9s_ActivateContext_run. destruct (String.eqb n ""); by eexists _, _.
Qed.

Lemma SetActiveNamespace_run (ns : string) (s : St) :
  SetActiveNamespace ns s =
  match active_of (K9s_of (this s)) with
  | Err e => Returns (Err e) s
  | Ok ct =>
      match lookupLimits (settings (this s)) with
      | None => Returns (Err SettingsError) s
      | Some lim =>
          Returns (Ok tt)
            (mkSt (mkConfig
                     (with_Contexts
                        (alter (fun c =>
                                  set_Active ns
                                    (take (MaxFavorites lim)
                                       (Namespace.Favorites (Context.Namespace c))) c)
                           ct.1 (Contexts (K9s_of (this s))))
                        (K9s_of (this s)))
                     (conn (this s)) (settings (this s)))
                  (trace s))
      end
  end.
Proof.
  unfold SetActiveNamespace. rewrite run_bind, K9s_ActiveContext_run.
  destruct (active_of (K9s_of (this s))) as [ct|e]; [|done]. run.
  unfold Namespace_SetActive. destruct (lookupLimits (settings (this s))); [|done].
  unfold update_ctx. by run.
Qed.

(** [Refine] on non-nil flags, step by step: context name, activation,
    namespace, commit, screen-dump directory. *)
Lemma Refine_run (env : Env) (f : ConfigFlags.t) (kf : option Flags)
    (cfg : client_Config) (s : St) :
  Refine env (Some f) kf cfg s =
  match spec_context_name f cfg with
  | Err e => Returns (Err e) s
  | Ok n =>
      match K9s_ActivateContext env n s with
      | Panics msg => Panics msg
      | Returns (Err e) s1 => Returns (Err e) s1
      | Returns (Ok _) s1 =>
          let logged :=
            mkSt (this s1)
              (trace s1 ++
               [EvLog DebugLevel "Active Context %q"
                  [AStr (activeContextName (K9s_of (this s1)))]]) in
          match active_of (K9s_of (this s1)) with
          | Err e => Returns (Err e) logged
          | Ok ct =>
              match SetActiveNamespace
                      (spec_namespace env (all_namespaces_set kf)
                         (ConfigFlags.Namespace f)
                         (Namespace.Active (Context.Namespace ct.2))) logged with
              | Panics msg => Panics msg
              | Returns (Err e) s2 => Returns (Err e) s2
              | Returns (Ok _) s2 =>
                  Returns
                    (data_EnsureDirPath env (K9s_GetScreenDumpDir env (K9s_of (this s2)))
                       (DefaultDirMod env))
                    (mkSt (this s2)
                       (trace s2 ++
                        [EvEnsureDirPath (K9s_GetScreenDumpDir env (K9s_of (this s2)))
                           (DefaultDirMod env)]))
              end
          end
      end
  end.
Proof.
  unfold Refine. run.
  assert (Hctx :
    (if isSet (ConfigFlags.Context f)
     then n ← deref (ConfigFlags.Context f);
          _ ←? K9s_ActivateContext env n; mret (Ok tt)
     else n ←? mret (CurrentContextName cfg);
          _ ←? K9s_ActivateContext env n; mret (Ok tt)) s =
    match spec_context_name f cfg with
    | Err e => Returns (Err e) s
    | Ok n =>
        match K9s_ActivateContext env n s with
        | Panics msg => Panics msg
        | Returns (Err e) s1 => Returns (Err e) s1
        | Returns (Ok _) s1 => Returns (Ok tt) s1
        end
    end).
  { unfold spec_context_name.
    destruct (ConfigFlags.Context f) as [v|]; [rewrite isSet_Some|cbn [isSet]].
    - destruct (String.eqb v ""); cbn [negb]; run.
      + destruct (CurrentContextName cfg) as [n|e]; [|done]. run.
        by destruct (K9s_ActivateContext env n s) as [[?|?] ?|?].
      + by destruct (K9s_ActivateContext env v s) as [[?|?] ?|?].
    - destruct (CurrentContextName cfg) as [n|e]; [|done]. run.
      by destruct (K9s_ActivateContext env n s) as [[?|?] ?|?]. }
  rewrite Hctx. clear Hctx.
  destruct (spec_context_name f cfg) as [n|e]; [|done].
  destruct (K9s_ActivateContext env n s) as [[ct|e] s1|msg]; [|done|done].
  unfold K9s_ActiveContextName, log_Msgf. run.
  set (logged := mkSt (this s1) _).
  assert (Hall :
    (if is_nil kf then mret false
     else kf0 ← deref kf; mret (IsBoolSet (AllNamespaces kf0))) logged
    = Returns (all_namespaces_set kf) logged) by (by destruct kf).
  rewrite Hall. clear Hall.
  assert (Hns :
    (if all_namespaces_set kf then mret (Ok NamespaceAll)
     else if isSet (ConfigFlags.Namespace f)
          then v ← deref (ConfigFlags.Namespace f); mret (Ok v)
          else K9s_ActiveContextNamespace) logged =
    Returns
      (if all_namespaces_set kf then Ok "all"
       else match ConfigFlags.Namespace f with
            | Some v =>
                if String.eqb v ""
                then match active_of (K9s_of (this s1)) with
                     | Ok act => Ok (Namespace.Active (Context.Namespace act.2))
                     | Err e => Err e
                     end
                else Ok v
            | None =>
                match active_of (K9s_of (this s1)) with
                | Ok act => Ok (Namespace.Active (Context.Namespace act.2))
                | Err e => Err e
                end
            end) logged).
  { destruct (all_namespaces_set kf); [done|].
    destruct (ConfigFlags.Namespace f) as [v|]; [rewrite isSet_Some|cbn [isSet]].
    - destruct (String.eqb v ""); cbn [negb]; [|done].
      by rewrite K9s_ActiveContextNamespace_run.
    - by rewrite K9s_ActiveContextNamespace_run. }
  rewrite run_bind, Hns. clear Hns.
  assert (Hcommit : forall ns,
    (r0 ← SetActiveNamespace ns;
     match r0 with
     | Ok _ =>
         k ← get_K9s;
         EnsureDirPath env (K9s_GetScreenDumpDir env k) (DefaultDirMod env)
     | Err e => mret (Err e)
     end) logged =
    match SetActiveNamespace ns logged with
    | Panics msg => Panics msg
    | Returns (Err e) s2 => Returns (Err e) s2
    | Returns (Ok _) s2 =>
        Returns
          (data_EnsureDirPath env (K9s_GetScreenDumpDir env (K9s_of (this s2)))
             (DefaultDirMod env))
          (mkSt (this s2)
             (trace s2 ++
              [EvEnsureDirPath (K9s_GetScreenDumpDir env (K9s_of (this s2)))
                 (DefaultDirMod env)]))
    end).
  { intros ns. rewrite run_bind.
    destruct (SetActiveNamespace ns logged) as [[?|?] s2|?]; [|done|done].
    unfold EnsureDirPath. by run. }
  assert (Hfail : forall ns e,
    active_of (K9s_of (this s1)) = Err e ->
    SetActiveNamespace ns logged = Returns (Err e) logged).
  { intros ns e He. rewrite SetActiveNamespace_run. cbn [this logged]. by rewrite He. }
  unfold spec_namespace.
  destruct (active_of (K9s_of (this s1))) as [act|e] eqn:Hact.
  - destruct (all_namespaces_set kf); [by rewrite Hcommit|].
    destruct (ConfigFlags.Namespace f) as [v|]; [|by rewrite Hcommit].
    destruct (String.eqb v "") eqn:Hv; rewrite Hcommit; [done|].
    by rewrite Hv.
  - destruct (all_namespaces_set kf);
      [by rewrite Hcommit, (Hfail _ e eq_refl)|].
    destruct (ConfigFlags.Namespace f) as [v|]; [|done].
    destruct (String.eqb v ""); [done|].
    by rewrite Hcommit, (Hfail _ e eq_refl).
Qed.

Lemma spec_namespace_cases (env : Env) (all : bool) (nsFlag : option string)
    (persisted : string) :
  (all = true -> spec_namespace env all nsFlag persisted = "all") /\
  (forall v, all = false -> nsFlag = Some v -> v <> "" ->
     spec_namespace env all nsFlag persisted = v) /\
  (all = false -> isSet nsFlag = false -> persisted <> "" ->
     spec_namespace env all nsFlag persisted = persisted) /\
  (all = false -> isSet nsFlag = false -> persisted = "" ->
     spec_namespace env all nsFlag persisted = DefaultNamespace env).
Proof.
  unfold spec_namespace. repeat split.
  - by intros ->.
  - intros v -> -> Hv. apply String.eqb_neq in Hv. by rewrite !Hv.
  - intros -> Hunset Hp. apply String.eqb_neq in Hp.
    destruct nsFlag as [v|]; [|by rewrite Hp].
    rewrite isSet_Some in Hunset. apply negb_false_iff in Hunset.
    by rewrite Hunset, Hp.
  - intros -> Hunset ->.
    destruct nsFlag as [v|]; [|done].
    rewrite isSet_Some in Hunset. apply negb_false_iff in Hunset.
    by rewrite Hunset.
Qed.

Lemma spec_namespace_nonempty (env : Env) (all : bool) (nsFlag : option string)
    (persisted : string) :
  DefaultNamespace env <> "" -> spec_namespace env all nsFlag persisted <> "".
Proof.
  intros Hdef. unfold spec_namespace.
  destruct (String.eqb _ "") eqn:E; [done|]. by apply String.eqb_neq.
Qed.

(** Once the context is activated and the settings can be read,
    [Refine] returns with the reconciled namespace committed to the
    active context, whatever the screen-dump directory step answers. *)
Lemma Refine_commits (env : Env) (f : ConfigFlags.t) (kf : option Flags)
    (cfg : client_Config) (s s1 : St) (n : string) (ct : ctx_ref) (lim : Limits) :
  spec_context_name f cfg = Ok n ->
  K9s_ActivateContext env n s = Returns (Ok ct) s1 ->
  lookupLimits (settings (this s)) = Some lim ->
  exists r s2,
    Refine env (Some f) kf cfg s = Returns r s2 /\
    activeContext (K9s_of (this s2)) = Some n /\
    K9s_ActiveContextNamespace s2 =
      Returns (Ok (spec_namespace env (all_namespaces_set kf) (ConfigFlags.Namespace f)
                     (Namespace.Active (Context.Namespace ct.2)))) s2.
Proof.
  intros Hname Hact Hlim.
  destruct (K9s_ActivateContext_Ok env n s s1 ct Hact)
    as (Hkey & _ & Hactive & _ & Hset & _).
  rewrite Refine_run, Hname, Hact. cbn zeta. rewrite Hactive.
  rewrite SetActiveNamespace_run. cbn [this trace K9s_of conn settings].
  rewrite Hactive, Hset, Hlim.
  destruct ct as [p c]. cbn [fst snd] in *. subst p.
  apply active_of_Ok in Hactive as [Hptr Hrec].
  eexists _, _. split; [reflexivity|]. split; [exact Hptr|].
  rewrite K9s_ActiveContextNamespace_run. cbn [this K9s_of].
  unfold active_of. cbn [activeContext Contexts with_Contexts].
  rewrite Hptr, lookup_alter_eq, Hrec. reflexivity.
Qed.

Lemma Refine_total (env : Env) (f : ConfigFlags.t) (kf : option Flags)
    (cfg : client_Config) (s : St) :
  exists r s', Refine env (Some f) kf cfg s = Returns r s'.
Proof.
  rewrite Refine_run.
  destruct (spec_context_name f cfg) as [n|e]; [|by eexists _, _].
  destruct (K9s_ActivateContext_total env n s) as ([ct|e] & s1 & ->);
    [|by eexists _, _].
  cbn zeta. destruct (active_of (K9s_of (this s1))) as [act|e]; [|by eexists _, _].
  rewrite SetActiveNamespace_run. cbn [this trace K9s_of conn settings].
  destruct (active_of (K9s_of (this s1))) as [act'|e]; [|by eexists _, _].
  destruct (lookupLimits (settings (this s1))); by eexists _, _.
Qed.

Lemma Refine_keeps_active (env : Env) (f : ConfigFlags.t) (kf : option Flags)
    (cfg : client_Config) (s s1 s2 : St) (n : string) (ct : ctx_ref) r :
  spec_context_name f cfg = Ok n ->
  K9s_ActivateContext env n s = Returns (Ok ct) s1 ->
  Refine env (Some f) kf cfg s = Returns r s2 ->
  activeContext (K9s_of (this s2)) = Some n.
Proof.
  intros Hname Hact.
  destruct (K9s_ActivateContext_Ok env n s s1 ct Hact)
    as (Hkey & _ & Hactive & _).
  rewrite Refine_run, Hname, Hact. cbn zeta. rewrite Hactive.
  rewrite SetActiveNamespace_run. cbn [this trace K9s_of conn settings].
  rewrite Hactive.
  destruct ct as [p c]. cbn [fst] in Hkey. subst p.
  apply active_of_Ok in Hactive as [Hptr _].
  destruct (lookupLimits (settings (this s1))); by intros [= <- <-].
Qed.

(** With nil flags [Refine] panics on its first line. *)
Example Refine_nil_flags_panics (env : Env) (kf : option Flags)
    (cfg : client_Config) (s : St) :
  Refine env None kf cfg s =
  Panics "invalid memory address or nil pointer dereference".
Proof. reflexivity. Qed.

(** C1. Once [Refine] has activated its context, and provided the
    settings can be read and the default namespace constant is not
    empty, [Refine] returns with the active namespace committed to: the
    "all" sentinel if the all-namespaces flag is set; otherwise the
    namespace flag if it is set and non-empty; otherwise the persisted
    namespace of the active context; with the default namespace constant
    in place of an empty result. The committed namespace is not
    empty. *)
Theorem Refine_namespace_precedence (env : Env) (f : ConfigFlags.t)
    (kf : option Flags) (cfg : client_Config) (s s1 : St) (n : string)
    (ct : ctx_ref) (lim : Limits) :
  DefaultNamespace env <> "" ->
  spec_context_name f cfg = Ok n ->
  K9s_ActivateContext env n s = Returns (Ok ct) s1 ->
  lookupLimits (settings (this s)) = Some lim ->
  let persisted := Namespace.Active (Context.Namespace ct.2) in
  let ns := spec_namespace env (all_namespaces_set kf) (ConfigFlags.Namespace f)
              persisted in
  ns <> "" /\
  exists r s2,
    Refine env (Some f) kf cfg s = Returns r s2 /\
    K9s_ActiveContextNamespace s2 = Returns (Ok ns) s2 /\
    ActiveNamespace env s2 = Returns ns s2.
Proof.
  intros Hdef Hname Hact Hlim persisted ns.
  split; [by apply spec_namespace_nonempty|].
  destruct (Refine_commits env f kf cfg s s1 n ct lim Hname Hact Hlim)
    as (r & s2 & Hrun & _ & Hns).
  exists r, s2. split; [exact Hrun|]. split; [exact Hns|].
  unfold ActiveNamespace. by rewrite run_bind, Hns.
Qed.

Lemma Refine_namespace_precedence_witness :
  exists r s2,
    Refine demo_env (Some (ConfigFlags.mk (Some "") (Some "prod")))
      (Some (mkFlags (Some false))) (mkClientConfig (Ok "dev")) demo_persisted
      = Returns r s2 /\
    K9s_ActiveContextNamespace s2 = Returns (Ok "prod") s2 /\
    ActiveNamespace demo_env s2 = Returns "prod" s2.
Proof.
  apply (Refine_namespace_precedence demo_env
           (ConfigFlags.mk (Some "") (Some "prod")) (Some (mkFlags (Some false)))
           (mkClientConfig (Ok "dev")) demo_persisted
           (mkSt (mkConfig
                    (mkK9s {[ "dev" := demo_context "staging" "svc" ]} (Some "dev")
                           None None "/tmp/dumps")
                    None demo_settings) [])
           "dev" ("dev", demo_context "staging" "svc") (mkLimits 9)).
  - discriminate.
  - reflexivity.
  - vm_compute. reflexivity.
  - reflexivity.
Defined.

(** The precedence scenarios of the specification: the explicit flag
    beats the persisted value, and the all-namespaces flag beats
    both. *)
Example Refine_flag_beats_persisted :
  (_ ← Refine demo_env (Some (ConfigFlags.mk (Some "") (Some "prod")))
         (Some (mkFlags (Some false))) (mkClientConfig (Ok "dev"));
   name ← ActiveContextName;
   ns ← ActiveNamespace demo_env;
   mret (name, ns)) demo_persisted
  = Returns ("dev", "prod")
      (mkSt (mkConfig
               (mkK9s {[ "dev" := Context.mk "kind"
                                    (Namespace.mk "prod" ["kube-system"; "ghost"])
                                    (View.mk "svc") ]}
                      (Some "dev") None None "/tmp/dumps")
               None demo_settings)
            [EvLog DebugLevel "Active Context %q" [AStr "dev"];
             EvEnsureDirPath "/tmp/dumps" 484]).
Proof. vm_compute. reflexivity. Qed.

Example Refine_all_beats_persisted :
  (_ ← Refine demo_env (Some (ConfigFlags.mk (Some "") (Some "")))
         (Some (mkFlags (Some true))) (mkClientConfig (Ok "dev"));
   ActiveNamespace demo_env) demo_persisted
  = Returns "all"
      (mkSt (mkConfig
               (mkK9s {[ "dev" := Context.mk "kind"
                                    (Namespace.mk "all" ["kube-system"; "ghost"])
                                    (View.mk "svc") ]}
                      (Some "dev") None None "/tmp/dumps")
               None demo_settings)
            [EvLog DebugLevel "Active Context %q" [AStr "dev"];
             EvEnsureDirPath "/tmp/dumps" 484]).
Proof. vm_compute. reflexivity. Qed.




(** C9. With a nil [k9sFlags], [Refine] does not panic: it returns. It
    behaves as with flags whose all-namespaces boolean is absent or
    false, and once the context is activated and the settings can be
    read it commits the namespace flag if set and non-empty, else the
    persisted namespace, else the default. *)
Theorem Refine_nil_k9sFlags (env : Env) (f : ConfigFlags.t)
    (cfg : client_Config) (s : St) :
  (exists r s', Refine env (Some f) None cfg s = Returns r s') /\
  Refine env (Some f) None cfg s = Refine env (Some f) (Some (mkFlags None)) cfg s /\
  Refine env (Some f) None cfg s
    = Refine env (Some f) (Some (mkFlags (Some false))) cfg s /\
  (forall n ct s1 lim,
     spec_context_name f cfg = Ok n ->
     K9s_ActivateContext env n s = Returns (Ok ct) s1 ->
     lookupLimits (settings (this s)) = Some lim ->
     exists r s2,
       Refine env (Some f) None cfg s = Returns r s2 /\
       K9s_ActiveContextNamespace s2 =
         Returns (Ok (spec_namespace env false (ConfigFlags.Namespace f)
                        (Namespace.Active (Context.Namespace ct.2)))) s2).
Proof.
  split; [apply Refine_total|].
  split; [by rewrite !Refine_run|].
  split; [by rewrite !Refine_run|].
  intros n ct s1 lim Hname Hact Hlim.
  destruct (Refine_commits env f None cfg s s1 n ct lim Hname Hact Hlim)
    as (r & s2 & Hrun & _ & Hns).
  by exists r, s2.
Qed.

Lemma Refine_nil_k9sFlags_witness :
  exists r s2,
    Refine demo_env (Some (ConfigFlags.mk None None)) None
      (mkClientConfig (Ok "dev")) demo_persisted = Returns r s2 /\
    K9s_ActiveContextNamespace s2 = Returns (Ok "staging") s2.
Proof.
  apply (proj2 (proj2 (proj2 (Refine_nil_k9sFlags demo_env (ConfigFlags.mk None None)
                                (mkClientConfig (Ok "dev")) demo_persisted)))
           "dev" ("dev", demo_context "staging" "svc")
           (mkSt (mkConfig
                    (mkK9s {[ "dev" := demo_context "staging" "svc" ]} (Some "dev")
                           None None "/tmp/dumps")
                    None demo_settings) [])
           (mkLimits 9)).
  - reflexivity.
  - vm_compute. reflexivity.
  - reflexivity.
Defined.

(** ** Further properties of the code *)

(** *** Strings as lists of bytes *)

Lemma chars_append (s1 s2 : string) :
  list_ascii_of_string (s1 ++ s2)
  = (list_ascii_of_string s1 ++ list_ascii_of_string s2)%list.
Proof.
  induction s1 as [|c s1 IH]; [done|].
  change (String c s1 ++ s2) with (String c (s1 ++ s2)).
  cbn [list_ascii_of_string]. by rewrite IH.
Qed.

Lemma chars_length (s : string) :
  List.length (list_ascii_of_string s) = String.length s.
Proof. induction s as [|c s IH]; [done|]. simpl. by rewrite IH. Qed.

Lemma chars_substring (n m : nat) (s : string) :
  list_ascii_of_string (substring n m s)
  = take m (drop n (list_ascii_of_string s)).
Proof.
  revert n m. induction s as [|c s IH]; intros n m.
  - by destruct n, m.
  - destruct n as [|n].
    + destruct m as [|m]; [done|]. cbn. by rewrite (IH 0 m).
    + cbn. apply IH.
Qed.

Lemma chars_inj (s1 s2 : string) :
  list_ascii_of_string s1 = list_ascii_of_string s2 -> s1 = s2.
Proof.
  intros H. rewrite <- (string_of_list_ascii_of_string s1),
    <- (string_of_list_ascii_of_string s2). by rewrite H.
Qed.

Lemma chars_of_list (l : list ascii) :
  list_ascii_of_string (string_of_list_ascii l) = l.
Proof. apply list_ascii_of_string_of_list_ascii. Qed.

Lemma append_empty_r (s : string) : s ++ "" = s.
Proof.
  induction s as [|c s IH]; [done|].
  change (String c s ++ "") with (String c (s ++ "")). by rewrite IH.
Qed.

Lemma append_length (s1 s2 : string) :
  String.length (s1 ++ s2) = String.length s1 + String.length s2.
Proof.
  induction s1 as [|c s1 IH]; [done|].
  change (String c s1 ++ s2) with (String c (s1 ++ s2)). cbn [String.length].
  by rewrite IH.
Qed.

(** *** [strings.HasSuffix], [strings.TrimSuffix] *)

Lemma HasSuffix_append (stem suffix : string) :
  strings_HasSuffix (stem ++ suffix) suffix = true.
Proof.
  unfold strings_HasSuffix. rewrite append_length.
  apply andb_true_intro. split; [apply Nat.leb_le; lia|].
  apply String.eqb_eq, chars_inj.
  rewrite chars_substring, chars_append.
  replace (String.length stem + String.length suffix - String.length suffix)
    with (List.length (list_ascii_of_string stem)) by (rewrite chars_length; lia).
  rewrite drop_app_length, <- chars_length. apply firstn_all.
Qed.

Lemma TrimSuffix_append (stem suffix : string) :
  strings_TrimSuffix (stem ++ suffix) suffix = stem.
Proof.
  unfold strings_TrimSuffix. rewrite HasSuffix_append. apply chars_inj.
  rewrite chars_substring, chars_append, append_length, drop_0.
  replace (String.length stem + String.length suffix - String.length suffix)
    with (List.length (list_ascii_of_string stem)) by (rewrite chars_length; lia).
  by rewrite take_app_length.
Qed.

Lemma HasSuffix_split (s suffix : string) :
  strings_HasSuffix s suffix = true ->
  strings_TrimSuffix s suffix ++ suffix = s.
Proof.
  intros H. unfold strings_TrimSuffix. rewrite H.
  unfold strings_HasSuffix in H. apply andb_prop in H as [Hle Heq].
  apply Nat.leb_le in Hle. apply String.eqb_eq in Heq.
  apply chars_inj. rewrite chars_append, chars_substring, drop_0.
  rewrite <- Heq at 2. rewrite chars_substring.
  set (n := String.length s - String.length suffix).
  replace (String.length suffix) with (List.length (list_ascii_of_string s) - n)
    by (rewrite chars_length; lia).
  rewrite <- length_drop, firstn_all. apply take_drop.
Qed.

(** *** [filepath.Ext] *)

Lemma string_of_app (l1 l2 : list ascii) :
  string_of_list_ascii (l1 ++ l2)
  = string_of_list_ascii l1 ++ string_of_list_ascii l2.
Proof. apply chars_inj. by rewrite chars_append, !chars_of_list. Qed.

Lemma append_assoc (s1 s2 s3 : string) : (s1 ++ s2) ++ s3 = s1 ++ (s2 ++ s3).
Proof. apply chars_inj. by rewrite !chars_append, app_assoc. Qed.

(** The scan stops at the first dot it meets, if no separator comes
    before it. *)
Lemma Ext_loop_found (r1 r2 : list ascii) (acc : string) :
  Forall (fun c => c <> "/"%char /\ c <> "."%char) r1 ->
  Ext_loop (r1 ++ "."%char :: r2) acc
  = String "." (string_of_list_ascii (rev r1) ++ acc).
Proof.
  intros H. revert acc. induction H as [|c r1 [Hsep Hdot] _ IH]; intros acc; [done|].
  cbn [app Ext_loop rev].
  apply Ascii.eqb_neq in Hsep, Hdot. rewrite Hsep, Hdot, IH.
  rewrite string_of_app, append_assoc. done.
Qed.

(** The scan stops at a separator: what lies before the final element
    does not count. *)
Lemma Ext_loop_final_element (r1 r2 : list ascii) (acc : string) :
  Forall (fun c => c <> "/"%char) r1 ->
  Ext_loop (r1 ++ "/"%char :: r2) acc = Ext_loop r1 acc.
Proof.
  intros H. revert acc. induction H as [|c r1 Hsep _ IH]; intros acc; [done|].
  cbn [app Ext_loop]. apply Ascii.eqb_neq in Hsep. rewrite Hsep.
  destruct (Ascii.eqb c "."); [done|]. apply IH.
Qed.

Lemma Ext_loop_cases (r : list ascii) (acc : string) :
  Ext_loop r acc = "" \/
  exists r1 r2, r = (r1 ++ "."%char :: r2)%list /\
    Ext_loop r acc = String "." (string_of_list_ascii (rev r1) ++ acc).
Proof.
  revert acc. induction r as [|c r IH]; intros acc; [by left|].
  cbn [Ext_loop]. destruct (Ascii.eqb c "/") eqn:Hsep; [by left|].
  destruct (Ascii.eqb c ".") eqn:Hdot.
  - right. apply Ascii.eqb_eq in Hdot as ->. by exists [], r.
  - destruct (IH (String c acc)) as [H|(r1 & r2 & -> & H)]; [by left|].
    right. exists (c :: r1), r2. split; [done|].
    rewrite H. cbn [rev]. by rewrite string_of_app, append_assoc.
Qed.

Lemma filepath_Ext_suffix (path : string) :
  exists stem, path = stem ++ filepath_Ext path.
Proof.
  unfold filepath_Ext.
  destruct (Ext_loop_cases (rev (list_ascii_of_string path)) "")
    as [->|(r1 & r2 & Hrev & ->)].
  - exists path. by rewrite append_empty_r.
  - exists (string_of_list_ascii (rev r2)). apply chars_inj.
    rewrite <- (rev_involutive (list_ascii_of_string path)), Hrev.
    rewrite rev_app_distr. cbn [rev]. rewrite <- app_assoc. cbn [app].
    rewrite chars_append, chars_of_list, append_empty_r.
    cbn [list_ascii_of_string]. by rewrite chars_of_list.
Qed.

Lemma filepath_Ext_append (stem body : string) :
  Forall (fun c => c <> "/"%char /\ c <> "."%char) (list_ascii_of_string body) ->
  filepath_Ext (stem ++ String "." body) = String "." body.
Proof.
  intros H. unfold filepath_Ext.
  rewrite chars_append. cbn [list_ascii_of_string].
  rewrite rev_app_distr. cbn [rev]. rewrite <- app_assoc. cbn [app].
  rewrite Ext_loop_found by (by apply Forall_rev).
  rewrite rev_involutive, string_of_list_ascii_of_string. by rewrite append_empty_r.
Qed.

Lemma filepath_Ext_yml (stem : string) : filepath_Ext (stem ++ ".yml") = ".yml".
Proof.
  apply filepath_Ext_append. repeat (constructor; [split; discriminate|]). constructor.
Qed.

Lemma filepath_Ext_yaml (stem : string) : filepath_Ext (stem ++ ".yaml") = ".yaml".
Proof.
  apply filepath_Ext_append. repeat (constructor; [split; discriminate|]). constructor.
Qed.

(** X1. The stem and the extension that [YamlExtension] computes put
    the path together again: trimming [filepath.Ext(path)] off [path]
    and appending it back gives [path], for every path. *)
Theorem TrimSuffix_Ext_roundtrip (path : string) :
  strings_HasSuffix path (filepath_Ext path) = true /\
  strings_TrimSuffix path (filepath_Ext path) ++ filepath_Ext path = path.
Proof.
  destruct (filepath_Ext_suffix path) as [stem H].
  remember (filepath_Ext path) as e eqn:He. clear He. subst path.
  split; [apply HasSuffix_append|]. by rewrite TrimSuffix_append.
Qed.

Lemma isYamlFile_suffix (file : string) :
  isYamlFile file = true <->
  exists stem, file = stem ++ ".yml" \/ file = stem ++ ".yaml".
Proof.
  unfold isYamlFile. split.
  - intros H. destruct (filepath_Ext_suffix file) as [stem Hstem].
    exists stem. apply orb_prop in H as [H|H]; apply String.eqb_eq in H;
      rewrite H in Hstem; auto.
  - intros [stem [-> | ->]].
    + by rewrite filepath_Ext_yml.
    + by rewrite filepath_Ext_yaml.
Qed.

(** X2. [isYamlFile] is exactly a test on how the path ends: it holds
    if and only if the path ends in ".yml" or in ".yaml". *)
Theorem isYamlFile_iff_suffix (file : string) :
  isYamlFile file = true <->
  exists stem, file = stem ++ ".yml" \/ file = stem ++ ".yaml".
Proof. apply isYamlFile_suffix. Qed.

Lemma isYamlFile_iff_suffix_witness :
  isYamlFile "etc/k9s/config.yaml" = true /\
  exists stem, ".yml" = stem ++ ".yml" \/ ".yml" = stem ++ ".yaml".
Proof.
  split.
  - apply (proj2 (isYamlFile_iff_suffix "etc/k9s/config.yaml")).
    exists "etc/k9s/config". right. reflexivity.
  - apply (proj1 (isYamlFile_iff_suffix ".yml")). reflexivity.
Defined.

(** X3. Only the final element of the path counts: for a file name
    without a separator, putting a directory in front of it, whatever
    its name, does not change whether [isYamlFile] accepts it. *)
Theorem isYamlFile_final_element (dir base : string) :
  Forall (fun c => c <> "/"%char) (list_ascii_of_string base) ->
  filepath_Ext (dir ++ "/" ++ base) = filepath_Ext base /\
  isYamlFile (dir ++ "/" ++ base) = isYamlFile base.
Proof.
  intros H.
  assert (Hext : filepath_Ext (dir ++ "/" ++ base) = filepath_Ext base).
  { unfold filepath_Ext. rewrite !chars_append. cbn [list_ascii_of_string app].
    rewrite rev_app_distr. cbn [rev]. rewrite <- app_assoc. cbn [app].
    apply Ext_loop_final_element. by apply Forall_rev. }
  split; [exact Hext|]. unfold isYamlFile. by rewrite Hext.
Qed.

Lemma isYamlFile_final_element_witness :
  filepath_Ext ("conf.yml" ++ "/" ++ "cfg") = "" /\
  isYamlFile ("conf.yml" ++ "/" ++ "cfg") = false.
Proof.
  apply (isYamlFile_final_element "conf.yml" "cfg").
  repeat (constructor; [discriminate|]). constructor.
Defined.

(** *** More on [YamlExtension] *)

Lemma YamlExtension_unrecognized (env : Env) (path : string) (s : St) :
  isYamlFile path = false ->
  YamlExtension env path s =
  Returns path
    (mkSt (this s)
       (trace s ++ [EvLog ErrorLevel "Config: File %s is not a yaml file" [AStr path]])).
Proof.
  intros Hno. unfold YamlExtension, log_Msgf. rewrite Hno. cbn [negb]. by run.
Qed.

Lemma YamlExtension_of_stem (env : Env) (stem ext : string) (s : St) :
  ext = ".yml" \/ ext = ".yaml" ->
  YamlExtension env (stem ++ ext) s =
  Returns (if IsNotExist (os_Stat env (stem ++ ".yml"))
           then stem ++ ".yaml" else stem ++ ".yml") s.
Proof.
  intros Hext.
  assert (Hyaml : isYamlFile (stem ++ ext) = true).
  { apply isYamlFile_suffix. exists stem. destruct Hext as [-> | ->]; auto. }
  rewrite (YamlExtension_recognized env _ s Hyaml). cbn zeta.
  assert (Hstem : strings_TrimSuffix (stem ++ ext) (filepath_Ext (stem ++ ext)) = stem).
  { destruct Hext as [-> | ->].
    - by rewrite filepath_Ext_yml, TrimSuffix_append.
    - by rewrite filepath_Ext_yaml, TrimSuffix_append. }
  by rewrite Hstem.
Qed.

(** X4. For a recognized path the answer of [YamlExtension] depends on
    the stem only, not on which of the two extensions was given: both
    spellings give the ".yml" name unless [os.Stat] reports that it
    does not exist, and the ".yaml" name then; the state is left as it
    was. *)
Theorem YamlExtension_either_spelling (env : Env) (stem : string) (s : St) :
  let answer := if IsNotExist (os_Stat env (stem ++ ".yml"))
                then stem ++ ".yaml" else stem ++ ".yml" in
  YamlExtension env (stem ++ ".yml") s = Returns answer s /\
  YamlExtension env (stem ++ ".yaml") s = Returns answer s /\
  isYamlFile answer = true.
Proof.
  intros answer. split; [|split].
  - apply YamlExtension_of_stem. by left.
  - apply YamlExtension_of_stem. by right.
  - apply isYamlFile_suffix. exists stem. unfold answer.
    destruct (IsNotExist _); auto.
Qed.

(** X5. [YamlExtension] is idempotent on its result: given the name it
    returned, in the same environment, it returns that name again. *)
Theorem YamlExtension_idempotent (env : Env) (path r : string) (s s1 s' : St) :
  YamlExtension env path s = Returns r s1 ->
  exists s2, YamlExtension env r s' = Returns r s2.
Proof.
  intros Hrun. destruct (isYamlFile path) eqn:Hyaml.
  - apply isYamlFile_suffix in Hyaml as [stem Hpath].
    assert (Hr : r = if IsNotExist (os_Stat env (stem ++ ".yml"))
                     then stem ++ ".yaml" else stem ++ ".yml").
    { destruct Hpath as [-> | ->];
        rewrite YamlExtension_of_stem in Hrun by auto;
        by injection Hrun as <- _. }
    exists s'. destruct (IsNotExist (os_Stat env (stem ++ ".yml"))) eqn:Hstat; subst r.
    + rewrite YamlExtension_of_stem by auto. by rewrite Hstat.
    + rewrite YamlExtension_of_stem by auto. by rewrite Hstat.
  - rewrite (YamlExtension_unrecognized env path s Hyaml) in Hrun.
    injection Hrun as <- _.
    eexists. by apply YamlExtension_unrecognized.
Qed.

Lemma YamlExtension_idempotent_witness :
  exists s2,
    YamlExtension (demo_env_on_disk "etc/cfg.yml") "etc/cfg.yml" demo_fresh
    = Returns "etc/cfg.yml" s2.
Proof.
  apply (YamlExtension_idempotent (demo_env_on_disk "etc/cfg.yml")
           "etc/cfg.yaml" "etc/cfg.yml" demo_fresh demo_fresh demo_fresh).
  reflexivity.
Defined.

(** *** Without an active context *)

(** X6. When the lookup of the active context fails with [e], the
    mutating and the reading methods part ways: [SetActiveNamespace]
    and [CurrentContext] return [e] itself, whereas [SetActiveView]
    silently drops the view (the next [ActiveView] still gives the
    default one) and [FavNamespaces] returns nil. None of them changes
    the state. *)
Theorem without_context_surface_or_drop (env : Env) (s : St) (e : error)
    (ns view : string) :
  active_of (K9s_of (this s)) = Err e ->
  SetActiveNamespace ns s = Returns (Err e) s /\
  CurrentContext s = Returns (Err e) s /\
  SetActiveView view s = Returns tt s /\
  (_ ← SetActiveView view; ActiveView env) s = Returns (DefaultView env) s /\
  FavNamespaces s = Returns [] s.
Proof.
  intros He.
  assert (Hset : SetActiveView view s = Returns tt s).
  { unfold SetActiveView. by rewrite run_bind, K9s_ActiveContext_run, He. }
  repeat split.
  - by rewrite SetActiveNamespace_run, He.
  - unfold CurrentContext. by rewrite K9s_ActiveContext_run, He.
  - exact Hset.
  - rewrite run_bind, Hset. by apply (ActiveView_no_context env s e).
  - unfold FavNamespaces. by rewrite run_bind, K9s_ActiveContext_run, He.
Qed.

Lemma without_context_surface_or_drop_witness :
  SetActiveNamespace "prod" demo_fresh = Returns (Err NoActiveContextError) demo_fresh /\
  CurrentContext demo_fresh = Returns (Err NoActiveContextError) demo_fresh /\
  SetActiveView "svc" demo_fresh = Returns tt demo_fresh /\
  (_ ← SetActiveView "svc"; ActiveView demo_env) demo_fresh = Returns "po" demo_fresh /\
  FavNamespaces demo_fresh = Returns [] demo_fresh.
Proof.
  apply (without_context_surface_or_drop demo_env demo_fresh NoActiveContextError
           "prod" "svc").
  reflexivity.
Defined.

(** *** The active view *)

Lemma SetActiveView_run (view : string) (s : St) (n : string) (ct : Context.t) :
  active_of (K9s_of (this s)) = Ok (n, ct) ->
  let k := K9s_of (this s) in
  let s1 := mkSt (mkConfig
                    (with_Contexts
                       (alter (fun c => Context.mk (Context.ClusterName c)
                                          (Context.Namespace c) (View.mk view))
                          n (Contexts k)) k)
                    (conn (this s)) (settings (this s))) (trace s) in
  SetActiveView view s = Returns tt s1 /\
  active_of (K9s_of (this s1))
    = Ok (n, Context.mk (Context.ClusterName ct) (Context.Namespace ct) (View.mk view)).
Proof.
  intros Hact k s1. split.
  - unfold SetActiveView. rewrite run_bind, K9s_ActiveContext_run, Hact.
    unfold update_ctx. by run.
  - apply active_of_Ok in Hact as [Hptr Hrec].
    unfold active_of. cbn [s1 this K9s_of activeContext Contexts with_Contexts].
    subst k. by rewrite Hptr, lookup_alter_eq, Hrec.
Qed.

(** X7. With an active context, the view given to [SetActiveView] is
    the one [ActiveView] returns next; a pending manual command still
    goes first, once, and the view set comes right after it. The
    namespace state of the context and every other context are left as
    they were. *)
Theorem SetActiveView_then_ActiveView (env : Env) (s : St) (n view : string)
    (ct : Context.t) :
  active_of (K9s_of (this s)) = Ok (n, ct) ->
  exists s1,
    SetActiveView view s = Returns tt s1 /\
    FavNamespaces s1 = Returns (Namespace.Favorites (Context.Namespace ct)) s1 /\
    (forall n', n' <> n ->
       Contexts (K9s_of (this s1)) !! n' = Contexts (K9s_of (this s)) !! n') /\
    (manualCommand (K9s_of (this s)) = None \/
     manualCommand (K9s_of (this s)) = Some "" ->
       ActiveView env s1 = Returns view s1) /\
    (forall m, manualCommand (K9s_of (this s)) = Some m -> m <> "" ->
       exists s2, calls 2 (ActiveView env) s1 = Returns [m; view] s2).
Proof.
  intros Hact.
  destruct (SetActiveView_run view s n ct Hact) as [Hset Hact1].
  eexists. split; [exact Hset|].
  set (s1 := mkSt _ _) in *. split; [|split; [|split]].
  - unfold FavNamespaces. by rewrite run_bind, K9s_ActiveContext_run, Hact1.
  - intros n' Hne. cbn [s1 this K9s_of Contexts with_Contexts].
    by apply lookup_alter_ne.
  - intros Hcmd. by apply (ActiveView_persisted env s1 n _ Hact1).
  - intros m Hcmd Hne. eexists.
    change (calls 2 (ActiveView env))
      with (a ← ActiveView env; rest ← calls 1 (ActiveView env); mret (a :: rest)).
    rewrite run_bind, (ActiveView_consumes env s1 n m _ Hact1 Hcmd Hne).
    rewrite run_bind.
    erewrite (calls_ActiveView_persisted env _ n _ 1); [|exact Hact1|by right].
    reflexivity.
Qed.

Lemma SetActiveView_then_ActiveView_witness :
  exists s1,
    SetActiveView "dp" demo_active = Returns tt s1 /\
    exists s2, calls 2 (ActiveView demo_env) s1 = Returns ["pods"; "dp"] s2.
Proof.
  destruct (SetActiveView_then_ActiveView demo_env demo_active "dev" "dp"
              (demo_context "staging" "svc"))
    as (s1 & Hset & _ & _ & _ & Hcmd).
  - vm_compute. reflexivity.
  - exists s1. split; [exact Hset|]. apply (Hcmd "pods"); [reflexivity|discriminate].
Defined.

(** *** The connection *)

(** X8. [GetConnection] returns what [SetConnection] was given.
    Setting a nil connection leaves the registry untouched; setting a
    live one passes the registry through [resetConnection]. Settings
    and the outside world are never touched. *)
Theorem SetConnection_then_GetConnection (env : Env) (cn : option Connection)
    (s : St) :
  exists s1,
    SetConnection env cn s = Returns tt s1 /\
    GetConnection s1 = Returns cn s1 /\
    settings (this s1) = settings (this s) /\
    trace s1 = trace s /\
    K9s_of (this s1) =
      match cn with
      | Some live => K9s_resetConnection env live (K9s_of (this s))
      | None => K9s_of (this s)
      end.
Proof.
  unfold SetConnection, GetConnection. destruct cn as [live|]; run; by eexists.
Qed.

(** *** More on [Load] *)

Lemma ensure_Logger_is_Some (env : Env) (k : K9s) :
  is_Some (Logger_of (ensure_Logger env k)).
Proof.
  unfold ensure_Logger. destruct (Logger_of k) eqn:E; [by rewrite E|done].
Qed.

Lemma ensure_Logger_idempotent (env : Env) (k : K9s) :
  ensure_Logger env (ensure_Logger env k) = ensure_Logger env k.
Proof.
  destruct (ensure_Logger_is_Some env k) as [l Hl].
  unfold ensure_Logger at 1. by rewrite Hl.
Qed.

(** X9. After a [Load] that succeeds the document has a logger
    configuration, whatever the file held and whatever the merge did;
    connection, settings and the outside world are as before. *)
Theorem Load_ensures_Logger (env : Env) (path : string) (s s' : St) :
  Load env path s = Returns (Ok tt) s' ->
  is_Some (Logger_of (K9s_of (this s'))) /\
  conn (this s') = conn (this s) /\
  settings (this s') = settings (this s) /\
  trace s' = trace s.
Proof.
  destruct (os_ReadFile env path) as [f|e] eqn:Hread.
  - destruct (yaml_Unmarshal env f) as [cfg|e] eqn:Hdec.
    + rewrite (Load_success env path s f cfg Hread Hdec). intros [= <-].
      cbn [this trace conn settings K9s_of]. split; [|done].
      apply ensure_Logger_is_Some.
    + unfold Load. run. rewrite Hread. run. by rewrite Hdec.
  - unfold Load. run. by rewrite Hread.
Qed.

Lemma Load_ensures_Logger_witness :
  is_Some (Logger_of
             (mkK9s {[ "dev" := demo_context "staging" "svc";
                       "prod" := demo_context "web" "dp" ]}
                    (Some "dev") (Some "pods") (Some (mkLogger [("tail", 100%Z)]))
                    "/tmp/dumps")).
Proof.
  apply (fun H => proj1 (Load_ensures_Logger demo_env "full.yaml" demo_active
                  (mkSt (mkConfig
                           (mkK9s {[ "dev" := demo_context "staging" "svc";
                                     "prod" := demo_context "web" "dp" ]}
                                  (Some "dev") (Some "pods")
                                  (Some (mkLogger [("tail", 100%Z)])) "/tmp/dumps")
                           None demo_settings) []) H)).
  vm_compute. reflexivity.
Defined.

(** X10. Loading a file that has no [k9s] object is idempotent: a
    second [Load] of it changes nothing more. *)
Theorem Load_without_k9s_idempotent (env : Env) (path : string) (s : St)
    (f : list Byte.byte) :
  os_ReadFile env path = Ok f ->
  yaml_Unmarshal env f = Ok None ->
  exists s1,
    Load env path s = Returns (Ok tt) s1 /\
    Load env path s1 = Returns (Ok tt) s1.
Proof.
  intros Hread Hdec. eexists. split; [by apply (Load_success env path s f None)|].
  rewrite (Load_success env path _ f None Hread Hdec).
  cbn [this trace conn settings K9s_of]. by rewrite ensure_Logger_idempotent.
Qed.

Lemma Load_without_k9s_idempotent_witness :
  exists s1,
    Load demo_env "empty.yaml" demo_active = Returns (Ok tt) s1 /\
    Load demo_env "empty.yaml" s1 = Returns (Ok tt) s1.
Proof.
  apply (Load_without_k9s_idempotent demo_env "empty.yaml" demo_active []);
    reflexivity.
Defined.

(** *** More on [SaveFile] *)

(** X11. [SaveFile] never changes the configuration. It always starts
    with the directory step for [path] with the fixed directory mode.
    It writes at most one file, and only when that step and the
    serialization both succeeded: the file is [path], the mode is 0644,
    the content is the serialized document. It returns success only if
    that write was made and succeeded. *)
Theorem SaveFile_frame (env : Env) (path : string) (s s' : St) (r : result unit) :
  SaveFile env path s = Returns r s' ->
  this s' = this s /\
  exists tr,
    trace s' = (trace s ++ EvEnsureDirPath path (DefaultDirMod env) :: tr)%list /\
    (forall p d m, In (EvWriteFile p d m) tr ->
       data_EnsureDirPath env path (DefaultDirMod env) = Ok tt /\
       yaml_Marshal env (K9s_of (this s)) = Ok d /\
       p = path /\ m = 420%Z /\ tr = [EvWriteFile p d m]) /\
    (forall k, ~ In (EvK9sSave k) tr) /\
    (r = Ok tt ->
       exists d, tr = [EvWriteFile path d 420] /\
                 os_WriteFile env path d 420 = Ok tt).
Proof.
  rewrite SaveFile_run. cbn zeta.
  destruct (data_EnsureDirPath env path (DefaultDirMod env)) as [[]|e] eqn:Hdir.
  - destruct (yaml_Marshal env (K9s_of (this s))) as [d|e] eqn:Hyaml.
    + intros [= <- <-]. split; [done|].
      exists [EvWriteFile path d 420]. cbn [this trace].
      rewrite <- app_assoc. split; [done|]. split; [|split].
      * intros p d' m [[= <- <- <-]|[]]. done.
      * intros k [[=]|[]].
      * intros Hok. by exists d.
    + intros [= <- <-]. split; [done|].
      eexists [_]. cbn [this trace]. rewrite <- app_assoc. split; [done|].
      split; [|split].
      * intros p d m [[=]|[]].
      * intros k [[=]|[]].
      * intros [=].
  - intros [= <- <-]. split; [done|].
    exists []. split; [done|]. split; [|split].
    + intros p d m [].
    + intros k [].
    + intros [=].
Qed.

Lemma SaveFile_frame_witness :
  exists tr,
    [EvEnsureDirPath "/etc/k9s/config.yaml" 484;
     EvWriteFile "/etc/k9s/config.yaml" [Byte.x6b; Byte.x39; Byte.x73] 420]
    = ([] ++ EvEnsureDirPath "/etc/k9s/config.yaml" 484 :: tr)%list /\
    exists d, tr = [EvWriteFile "/etc/k9s/config.yaml" d 420].
Proof.
  destruct (SaveFile_frame demo_env "/etc/k9s/config.yaml" demo_active
              (mkSt (this demo_active)
                 [EvEnsureDirPath "/etc/k9s/config.yaml" 484;
                  EvWriteFile "/etc/k9s/config.yaml" [Byte.x6b; Byte.x39; Byte.x73] 420])
              (Ok tt) eq_refl)
    as (_ & tr & Htr & _ & _ & Hok).
  exists tr. split; [exact Htr|].
  destruct (Hok eq_refl) as (d & Hd & _). by exists d.
Defined.

(** *** More on [Refine] *)

(** X12. When the context flag is set and non-empty, the connection is
    not consulted: [Refine] does the same whatever
    [CurrentContextName] would answer, an error included. *)
Theorem Refine_context_flag_ignores_connection (env : Env) (f : ConfigFlags.t)
    (kf : option Flags) (cfg cfg' : client_Config) (s : St) (v : string) :
  ConfigFlags.Context f = Some v -> v <> "" ->
  Refine env (Some f) kf cfg s = Refine env (Some f) kf cfg' s.
Proof.
  intros Hflag Hv. rewrite !Refine_run. unfold spec_context_name.
  rewrite Hflag. apply String.eqb_neq in Hv. by rewrite Hv.
Qed.

Lemma Refine_context_flag_ignores_connection_witness :
  Refine demo_env (Some (ConfigFlags.mk (Some "dev") None)) None
    (mkClientConfig (Err (ConnectionError "no current context"))) demo_persisted
  = Refine demo_env (Some (ConfigFlags.mk (Some "dev") None)) None
      (mkClientConfig (Ok "prod")) demo_persisted.
Proof.
  apply (Refine_context_flag_ignores_connection demo_env
           (ConfigFlags.mk (Some "dev") None) None _ _ demo_persisted "dev").
  - reflexivity.
  - discriminate.
Defined.

(** X13. A flag that is present but empty counts as absent: [Refine]
    does the same with an empty context flag as with a nil one, and
    the same with an empty namespace flag as with a nil one. *)
Theorem Refine_empty_flag_is_unset (env : Env) (c n : option string)
    (kf : option Flags) (cfg : client_Config) (s : St) :
  Refine env (Some (ConfigFlags.mk (Some "") n)) kf cfg s
    = Refine env (Some (ConfigFlags.mk None n)) kf cfg s /\
  Refine env (Some (ConfigFlags.mk c (Some ""))) kf cfg s
    = Refine env (Some (ConfigFlags.mk c None)) kf cfg s.
Proof. split; by rewrite !Refine_run. Qed.

(** X14. Once the context is activated and the settings can be read,
    what [Refine] returns is the answer of the screen-dump directory
    step, made last with the fixed directory mode: when that step
    fails, its error is returned, yet the context stays active and the
    namespace stays committed. *)
Theorem Refine_returns_directory_answer (env : Env) (f : ConfigFlags.t)
    (kf : option Flags) (cfg : client_Config) (s s1 s2 : St) (n : string)
    (ct : ctx_ref) (lim : Limits) (r : result unit) :
  spec_context_name f cfg = Ok n ->
  K9s_ActivateContext env n s = Returns (Ok ct) s1 ->
  lookupLimits (settings (this s)) = Some lim ->
  Refine env (Some f) kf cfg s = Returns r s2 ->
  let dir := K9s_GetScreenDumpDir env (K9s_of (this s2)) in
  r = data_EnsureDirPath env dir (DefaultDirMod env) /\
  trace s2 = (trace s ++ [EvLog DebugLevel "Active Context %q" [AStr n];
                          EvEnsureDirPath dir (DefaultDirMod env)])%list /\
  activeContext (K9s_of (this s2)) = Some n /\
  K9s_ActiveContextNamespace s2 =
    Returns (Ok (spec_namespace env (all_namespaces_set kf) (ConfigFlags.Namespace f)
                   (Namespace.Active (Context.Namespace ct.2)))) s2.
Proof.
  intros Hname Hact Hlim Hrun.
  destruct (Refine_commits env f kf cfg s s1 n ct lim Hname Hact Hlim)
    as (r' & s2' & Hrun' & Hptr & Hns).
  rewrite Hrun in Hrun'. injection Hrun' as <- <-.
  cbn zeta. split; [|split; [|split]]; [| |exact Hptr|exact Hns].
  - revert Hrun.
    destruct (K9s_ActivateContext_Ok env n s s1 ct Hact)
      as (_ & _ & Hactive & _ & Hset & _).
    rewrite Refine_run, Hname, Hact. cbn zeta. rewrite Hactive.
    rewrite SetActiveNamespace_run. cbn [this trace K9s_of conn settings].
    rewrite Hactive, Hset, Hlim. by intros [= <- <-].
  - revert Hrun.
    destruct (K9s_ActivateContext_Ok env n s s1 ct Hact)
      as (Hkey & _ & Hactive & _ & Hset & Htr).
    rewrite Refine_run, Hname, Hact. cbn zeta. rewrite Hactive.
    rewrite SetActiveNamespace_run. cbn [this trace K9s_of conn settings].
    rewrite Hactive, Hset, Hlim. intros [= <- <-]. cbn [this trace K9s_of].
    rewrite Htr, <- app_assoc. cbn [app].
    by rewrite (active_of_name _ _ _ (eq_trans Hactive
                  (f_equal Ok (surjective_pairing ct)))), Hkey.
Qed.

Lemma Refine_returns_directory_answer_witness :
  let readonly := with_data_EnsureDirPath (fun p _ => Err (IOError EACCES p)) demo_env in
  let failed :=
    mkSt (mkConfig
            (mkK9s {[ "dev" := Context.mk "kind"
                                 (Namespace.mk "prod" ["kube-system"; "ghost"])
                                 (View.mk "svc") ]}
                   (Some "dev") None None "/tmp/dumps")
            None demo_settings)
         [EvLog DebugLevel "Active Context %q" [AStr "dev"];
          EvEnsureDirPath "/tmp/dumps" 484] in
  Refine readonly (Some (ConfigFlags.mk None (Some "prod"))) None
    (mkClientConfig (Ok "dev")) demo_persisted
    = Returns (Err (IOError EACCES "/tmp/dumps")) failed /\
  activeContext (K9s_of (this failed)) = Some "dev" /\
  K9s_ActiveContextNamespace failed = Returns (Ok "prod") failed.
Proof.
  intros readonly failed.
  assert (Hrun : Refine readonly (Some (ConfigFlags.mk None (Some "prod"))) None
                   (mkClientConfig (Ok "dev")) demo_persisted
                 = Returns (Err (IOError EACCES "/tmp/dumps")) failed)
    by (vm_compute; reflexivity).
  split; [exact Hrun|].
  apply (Refine_returns_directory_answer readonly
           (ConfigFlags.mk None (Some "prod")) None (mkClientConfig (Ok "dev"))
           demo_persisted
           (mkSt (mkConfig
                    (mkK9s {[ "dev" := demo_context "staging" "svc" ]} (Some "dev")
                           None None "/tmp/dumps")
                    None demo_settings) [])
           failed "dev" ("dev", demo_context "staging" "svc") (mkLimits 9)
           (Err (IOError EACCES "/tmp/dumps"))).
  - reflexivity.
  - vm_compute. reflexivity.
  - reflexivity.
  - exact Hrun.
Defined.
